(** * Educational proof-of-work miner (src/main.py)

    A shallow embedding of the two hashing endpoints of the FastAPI service,
    [mine] (POST /api/mine) and [simple_hash] (POST /api/hash), together with
    the library functions they call: [hashlib.sha256], [str.encode],
    [str(int)], [str.startswith], float arithmetic on the readings of
    [time.perf_counter].

    Conventions.
    - A Python [str] is represented by the [string] of its UTF-8 bytes, so
      that [encode] is the passage from [string] to [list byte] and string
      concatenation is concatenation of the encodings.
    - A Python [int] is a [Z]; a Python [float] is a binary64 [spec_float].
    - [time.perf_counter] is an oracle: the k-th call of a request returns
      [clock k].  Every clock reading and every digest computation is
      recorded in a trace of events. *)

From Stdlib Require Import ZArith List String Ascii Bool Lia.
From Stdlib.Strings Require Import Byte.
From Stdlib Require Import DecimalString DecimalPos DecimalZ SpecFloat.
Import ListNotations.

Local Open Scope Z_scope.

(* ===================================================================== *)
(** ** hashlib.sha256 (FIPS 180-4) on 32-bit words carried by [Z]        *)
(* ===================================================================== *)

Module SHA256.

Definition word_modulus : Z := 2 ^ 32.

Definition add32 (x y : Z) : Z := (x + y) mod word_modulus.

Definition rotr (n x : Z) : Z :=
  Z.lor (Z.shiftr x n) ((Z.shiftl x (32 - n)) mod word_modulus).

Definition shr (n x : Z) : Z := Z.shiftr x n.

Definition not32 (x : Z) : Z := Z.lxor x (word_modulus - 1).

Definition Ch (x y z : Z) : Z := Z.lxor (Z.land x y) (Z.land (not32 x) z).

Definition Maj (x y z : Z) : Z :=
  Z.lxor (Z.lxor (Z.land x y) (Z.land x z)) (Z.land y z).

Definition Sigma0 (x : Z) : Z := Z.lxor (Z.lxor (rotr 2 x) (rotr 13 x)) (rotr 22 x).
Definition Sigma1 (x : Z) : Z := Z.lxor (Z.lxor (rotr 6 x) (rotr 11 x)) (rotr 25 x).
Definition sigma0 (x : Z) : Z := Z.lxor (Z.lxor (rotr 7 x) (rotr 18 x)) (shr 3 x).
Definition sigma1 (x : Z) : Z := Z.lxor (Z.lxor (rotr 17 x) (rotr 19 x)) (shr 10 x).

(** The constants of the standard are the first 32 bits of the fractional
    parts of the cube roots (round constants) and of the square roots
    (initial chaining value) of the first primes; they are computed here
    from that definition. *)

Definition is_prime (n : Z) : bool :=
  (2 <=? n) &&
  List.forallb (fun d => negb (n mod d =? 0))
    (List.map Z.of_nat (List.seq 2 (Z.to_nat n - 2))).

Definition first_primes (k : nat) : list Z :=
  List.firstn k (List.filter is_prime (List.map Z.of_nat (List.seq 2 310))).

(** The largest [r] below [2 ^ bits] with [acc + r] to the power [e] at most
    [n], found bit by bit from the top. *)
Fixpoint int_root (e : Z) (bits : nat) (n acc : Z) : Z :=
  match bits with
  | O => acc
  | S b =>
      let c := acc + 2 ^ Z.of_nat b in
      if c ^ e <=? n then int_root e b n c else int_root e b n acc
  end.

(** First 32 bits of the fractional part of the [e]-th root of [p]. *)
Definition root_fraction (e p : Z) : Z :=
  (int_root e 36 (p * 2 ^ (32 * e)) 0) mod word_modulus.

Definition K : list Z :=
  Eval vm_compute in List.map (root_fraction 3) (first_primes 64).

(** The eight chaining words. *)
Record state : Type := mkState {
  h0 : Z; h1 : Z; h2 : Z; h3 : Z; h4 : Z; h5 : Z; h6 : Z; h7 : Z
}.

Definition state_of_list (ws : list Z) : state :=
  mkState (List.nth 0 ws 0) (List.nth 1 ws 0) (List.nth 2 ws 0) (List.nth 3 ws 0)
          (List.nth 4 ws 0) (List.nth 5 ws 0) (List.nth 6 ws 0) (List.nth 7 ws 0).

Definition H_init : state :=
  Eval vm_compute in state_of_list (List.map (root_fraction 2) (first_primes 8)).

(** *** Padding and parsing *)

Definition byte_val (b : byte) : Z := Z.of_N (Byte.to_N b).

(** Big-endian bytes of [v], [n] of them. *)
Fixpoint be_bytes (n : nat) (v : Z) : list Z :=
  match n with
  | O => []
  | S n' => (Z.shiftr v (8 * Z.of_nat n')) mod 256 :: be_bytes n' v
  end.

(** Number of zero bytes after the 0x80 marker: the padded length is the
    least multiple of 64 that leaves room for the marker and the 8-byte
    length. *)
Definition zero_pad (len : Z) : nat := Z.to_nat ((55 - len) mod 64).

Definition pad (msg : list byte) : list Z :=
  let len := Z.of_nat (List.length msg) in
  List.map byte_val msg ++ [0x80] ++ List.repeat 0 (zero_pad len)
    ++ be_bytes 8 (8 * len).

Definition word_of_bytes (b0 b1 b2 b3 : Z) : Z :=
  Z.lor (Z.lor (Z.shiftl b0 24) (Z.shiftl b1 16)) (Z.lor (Z.shiftl b2 8) b3).

(** Big-endian 32-bit words of a byte sequence (a trailing group of fewer
    than four bytes does not occur after padding). *)
Fixpoint words_of_bytes (bs : list Z) : list Z :=
  match bs with
  | b0 :: b1 :: b2 :: b3 :: rest => word_of_bytes b0 b1 b2 b3 :: words_of_bytes rest
  | _ => []
  end.

(** Cut a word sequence into blocks of sixteen words. *)
Fixpoint blocks (fuel : nat) (ws : list Z) : list (list Z) :=
  match fuel with
  | O => []
  | S fuel' =>
      match ws with
      | [] => []
      | _ => List.firstn 16 ws :: blocks fuel' (List.skipn 16 ws)
      end
  end.

(** *** Message schedule: [ws] holds W(t-1), W(t-2), ... newest first. *)
Fixpoint extend (n : nat) (ws : list Z) : list Z :=
  match n with
  | O => ws
  | S n' =>
      let w := add32 (add32 (sigma1 (List.nth 1 ws 0)) (List.nth 6 ws 0))
                     (add32 (sigma0 (List.nth 14 ws 0)) (List.nth 15 ws 0)) in
      extend n' (w :: ws)
  end.

Definition schedule (block : list Z) : list Z :=
  List.rev (extend 48 (List.rev block)).

(** *** Compression *)

Definition round (s : state) (kw : Z * Z) : state :=
  let '(k, w) := kw in
  let T1 := add32 (add32 (add32 (h7 s) (Sigma1 (h4 s)))
                         (add32 (Ch (h4 s) (h5 s) (h6 s)) k)) w in
  let T2 := add32 (Sigma0 (h0 s)) (Maj (h0 s) (h1 s) (h2 s)) in
  mkState (add32 T1 T2) (h0 s) (h1 s) (h2 s)
          (add32 (h3 s) T1) (h4 s) (h5 s) (h6 s).

Definition compress (s : state) (block : list Z) : state :=
  let r := List.fold_left round (List.combine K (schedule block)) s in
  mkState (add32 (h0 s) (h0 r)) (add32 (h1 s) (h1 r))
          (add32 (h2 s) (h2 r)) (add32 (h3 s) (h3 r))
          (add32 (h4 s) (h4 r)) (add32 (h5 s) (h5 r))
          (add32 (h6 s) (h6 r)) (add32 (h7 s) (h7 r)).

(** [hashlib.sha256(msg)]: the final chaining value. *)
Definition sha256 (msg : list byte) : state :=
  let ws := words_of_bytes (pad msg) in
  List.fold_left compress (blocks (S (List.length ws)) ws) H_init.

(** *** [.hexdigest()] *)

Definition hex_digit (d : Z) : ascii :=
  match d with
  | 0 => "0" | 1 => "1" | 2 => "2" | 3 => "3"
  | 4 => "4" | 5 => "5" | 6 => "6" | 7 => "7"
  | 8 => "8" | 9 => "9" | 10 => "a" | 11 => "b"
  | 12 => "c" | 13 => "d" | 14 => "e" | _ => "f"
  end%char.

(** The [n] low hex digits of [v], most significant first. *)
Fixpoint hex_of (n : nat) (v : Z) : string :=
  match n with
  | O => EmptyString
  | S n' => String (hex_digit ((Z.shiftr v (4 * Z.of_nat n')) mod 16)) (hex_of n' v)
  end.

Definition hex32 (w : Z) : string := hex_of 8 w.

Definition hexdigest (s : state) : string :=
  (hex32 (h0 s) ++ hex32 (h1 s) ++ hex32 (h2 s) ++ hex32 (h3 s) ++
   hex32 (h4 s) ++ hex32 (h5 s) ++ hex32 (h6 s) ++ hex32 (h7 s))%string.

End SHA256.

(* ===================================================================== *)
(** ** Python values: str, bytes, int, float                             *)
(* ===================================================================== *)

Module Py.

(** [s.encode()]: the UTF-8 bytes of [s]. *)
Definition encode (s : string) : list byte := list_byte_of_string s.

(** [str(n)] for an [int]: decimal digits, with a leading minus sign for
    negative numbers. *)
Definition str (n : Z) : string := NilZero.string_of_int (Z.to_int n).

(** [s * n]: [n] copies of [s], none when [n <= 0]. *)
Fixpoint str_repeat (s : string) (n : nat) : string :=
  match n with
  | O => EmptyString
  | S n' => (s ++ str_repeat s n')%string
  end.

Definition str_mul (s : string) (n : Z) : string := str_repeat s (Z.to_nat n).

(** [s.startswith(p)]. *)
Definition startswith (s p : string) : bool := String.prefix p s.

(** Exceptions that the modelled code can raise. *)
Inductive exn : Type :=
| HTTPException (status_code : Z) (detail : string)
| RequestValidationError (field : string)
| OverflowError (msg : string)
| ValueError (msg : string).

(** *** float: IEEE 754 binary64 *)

Definition float : Type := spec_float.
Definition prec : Z := 53.
Definition emax : Z := 1024.

Definition fadd (x y : float) : float := SFadd prec emax x y.
Definition fsub (x y : float) : float := SFsub prec emax x y.
Definition fmul (x y : float) : float := SFmul prec emax x y.
Definition fdiv (x y : float) : float := SFdiv prec emax x y.
Definition flt (x y : float) : bool := SFltb x y.

(** Conversion of an [int] operand of a float operation: correctly rounded,
    and an [OverflowError] when the magnitude is beyond the finite floats. *)
Definition float_of_int (n : Z) : exn + float :=
  match binary_normalize prec emax n 0 false with
  | S754_infinity _ => inl (OverflowError "int too large to convert to float")
  | f => inr f
  end.

(** The literal [1000.0]. *)
Definition f1000 : float := binary_normalize prec emax 1000 0 false.

(** [int(x)] for a float: truncation toward zero. *)
Definition int_of_float (x : float) : exn + Z :=
  match x with
  | S754_zero _ => inr 0
  | S754_finite s m e =>
      let a := Z.shiftl (Zpos m) e in inr (if s then - a else a)
  | S754_infinity _ => inl (OverflowError "cannot convert float infinity to integer")
  | S754_nan => inl (ValueError "cannot convert float NaN to integer")
  end.

End Py.

(* ===================================================================== *)
(** ** Effects: the clock, the trace, exceptions                         *)
(* ===================================================================== *)

Inductive event : Type :=
| EvClock (t : Py.float)           (* time.perf_counter() returned t *)
| EvDigest (payload : list byte).  (* hashlib.sha256(payload) was computed *)

(** [reads] counts the calls of [time.perf_counter] so far; [trace] lists
    the events oldest first. *)
Record world : Type := mkWorld { reads : nat; trace : list event }.

Definition init_world : world := mkWorld 0 [].

(** Result of running a computation: a value, a raised exception, or the
    iteration budget of the model ran out. *)
Inductive res (A : Type) : Type :=
| Ok (a : A)
| Raise (e : Py.exn)
| OutOfFuel.
Arguments Ok {A} a.
Arguments Raise {A} e.
Arguments OutOfFuel {A}.

Definition M (A : Type) : Type := world -> res A * world.

Definition ret {A} (a : A) : M A := fun w => (Ok a, w).

Definition bind {A B} (m : M A) (k : A -> M B) : M B :=
  fun w =>
    match m w with
    | (Ok a, w') => k a w'
    | (Raise e, w') => (Raise e, w')
    | (OutOfFuel, w') => (OutOfFuel, w')
    end.

Definition raise {A} (e : Py.exn) : M A := fun w => (Raise e, w).

Definition out_of_fuel {A} : M A := fun w => (OutOfFuel, w).

(** Lift a pure fallible operation. *)
Definition lift {A} (x : Py.exn + A) : M A :=
  match x with
  | inl e => raise e
  | inr a => ret a
  end.

Declare Scope miner_scope.
Delimit Scope miner_scope with miner.
Notation "x <- c ;; k" := (bind c (fun x => k))
  (at level 61, c at next level, right associativity) : miner_scope.

(** Payloads hashed during a run, oldest first. *)
Fixpoint digests (tr : list event) : list (list byte) :=
  match tr with
  | [] => []
  | EvDigest p :: tr' => p :: digests tr'
  | EvClock _ :: tr' => digests tr'
  end.

(** [hashlib.sha256(payload).hexdigest()] as a pure function. *)
Definition sha256_hex (payload : list byte) : string :=
  SHA256.hexdigest (SHA256.sha256 payload).

(** Number of leading ['0'] characters of a string. *)
Fixpoint leading_zeros (s : string) : nat :=
  match s with
  | String "0"%char s' => S (leading_zeros s')
  | _ => O
  end.

(* ===================================================================== *)
(** ** The request and response models                                    *)
(* ===================================================================== *)

Record MineRequest : Type := mkMineRequest {
  data : string;
  difficulty : Z;
  start_nonce : Z;
  max_hashes : Z;
  time_limit_ms : Z
}.

Record MineResult : Type := mkMineResult {
  found : bool;
  nonce : option Z;
  hash_hex : option string;
  tried_hashes : Z;
  elapsed_ms : Z;
  target_prefix : string
}.

(** The JSON body of POST /api/mine: every field may be omitted. *)
Record MineBody : Type := mkMineBody {
  body_data : option string;
  body_difficulty : option Z;
  body_start_nonce : option Z;
  body_max_hashes : option Z;
  body_time_limit_ms : option Z
}.

Definition default {A} (d : A) (o : option A) : A :=
  match o with
  | Some a => a
  | None => d
  end.

(** Field defaults and the constraint [conint(ge=1, le=7)] on
    [difficulty]; the other fields are unconstrained. *)
Definition validate (b : MineBody) : Py.exn + MineRequest :=
  let d := default 4 (body_difficulty b) in
  if (1 <=? d) && (d <=? 7) then
    inr (mkMineRequest (default "Hello, Bitcoin!"%string (body_data b)) d
           (default 0 (body_start_nonce b))
           (default 200000 (body_max_hashes b))
           (default 1500 (body_time_limit_ms b)))
  else inl (Py.RequestValidationError "difficulty").

(** The byte payload of a candidate: [f"{data}|{nonce}".encode()]. *)
Definition payload_of (d : string) (n : Z) : list byte :=
  Py.encode (d ++ "|" ++ Py.str n)%string.

(* ===================================================================== *)
(** ** POST /api/mine                                                    *)
(* ===================================================================== *)

(** The four variables that the search loop updates. *)
Record locals : Type := mkLocals {
  l_tried : Z;
  l_nonce : Z;
  l_found_hash : option string;
  l_found_nonce : option Z
}.

Section Miner.

Local Open Scope miner_scope.

(** The k-th call of [time.perf_counter] returns [clock k]. *)
Variable clock : nat -> Py.float.

Definition perf_counter : M Py.float :=
  fun w =>
    let t := clock (reads w) in
    (Ok t, mkWorld (S (reads w)) (trace w ++ [EvClock t])).

Definition sha256_hexdigest (payload : list byte) : M string :=
  fun w =>
    (Ok (sha256_hex payload), mkWorld (reads w) (trace w ++ [EvDigest payload])).

(** The [while] loop of [mine].  [fuel] bounds the number of executions of
    the loop body; the guard is evaluated left to right, so the clock is
    read only when [tried < max_hashes]. *)
Fixpoint mine_loop (req : MineRequest) (prefix : string) (deadline : Py.float)
    (fuel : nat) (l : locals) {struct fuel} : M locals :=
  if l_tried l <? max_hashes req then
    now <- perf_counter ;;
    if Py.flt now deadline then
      match fuel with
      | O => out_of_fuel
      | S fuel' =>
          let payload := payload_of (data req) (l_nonce l) in
          digest <- sha256_hexdigest payload ;;
          let tried := l_tried l + 1 in
          if Py.startswith digest prefix then
            (* found_hash = digest; found_nonce = nonce; break *)
            ret (mkLocals tried (l_nonce l) (Some digest) (Some (l_nonce l)))
          else
            mine_loop req prefix deadline fuel'
              (mkLocals tried (l_nonce l + 1) (l_found_hash l) (l_found_nonce l))
      end
    else ret l
  else ret l.

Definition is_some {A} (o : option A) : bool :=
  match o with
  | Some _ => true
  | None => false
  end.

Definition mine (fuel : nat) (req : MineRequest) : M MineResult :=
  if max_hashes req >? 1000000 then
    raise (Py.HTTPException 400 "max_hashes too large; must be <= 1,000,000")
  else
    let prefix := Py.str_mul "0" (difficulty req) in
    start <- perf_counter ;;
    limit <- lift (Py.float_of_int (time_limit_ms req)) ;;
    let deadline := Py.fadd start (Py.fdiv limit Py.f1000) in
    l <- mine_loop req prefix deadline fuel
           (mkLocals 0 (start_nonce req) None None) ;;
    stop <- perf_counter ;;
    elapsed <- lift (Py.int_of_float (Py.fmul (Py.fsub stop start) Py.f1000)) ;;
    ret (mkMineResult (is_some (l_found_nonce l)) (l_found_nonce l)
           (l_found_hash l) (l_tried l) elapsed prefix).

(** The route: the body is validated into a [MineRequest] before the
    handler is called. *)
Definition post_api_mine (fuel : nat) (b : MineBody) : M MineResult :=
  match validate b with
  | inl e => raise e
  | inr req => mine fuel req
  end.

End Miner.

(* ===================================================================== *)
(** ** POST /api/hash                                                    *)
(* ===================================================================== *)

Record HashResponse : Type := mkHashResponse {
  resp_data : string;
  resp_sha256 : string
}.

Definition simple_hash (d : string) : HashResponse :=
  mkHashResponse d (SHA256.hexdigest (SHA256.sha256 (Py.encode d))).

(* ===================================================================== *)
(** ** Vocabulary of the properties                                      *)
(* ===================================================================== *)

(** The digest of the candidate [n] for the data [d]. *)
Definition digest_at (d : string) (n : Z) : string :=
  sha256_hex (payload_of d n).

(** The prefix condition: the digest of candidate [n] starts with
    [difficulty] zeros. *)
Definition prefix_condition (d : string) (difficulty : Z) (n : Z) : bool :=
  Py.startswith (digest_at d n) (Py.str_mul "0" difficulty).

(** [k] consecutive integers from [start]. *)
Fixpoint nonces_from (start : Z) (k : nat) : list Z :=
  match k with
  | O => []
  | S k' => start :: nonces_from (start + 1) k'
  end.

(** Shape of the events of the search loop: each digest is directly
    preceded by a clock reading below the deadline, and a reading that is
    not below the deadline ends the loop. *)
Inductive checked_attempts (deadline : Py.float) : list event -> Prop :=
| ca_done : checked_attempts deadline []
| ca_expired t :
    Py.flt t deadline = false ->
    checked_attempts deadline [EvClock t]
| ca_pending t :
    Py.flt t deadline = true ->
    checked_attempts deadline [EvClock t]
| ca_attempt t p rest :
    Py.flt t deadline = true ->
    checked_attempts deadline rest ->
    checked_attempts deadline (EvClock t :: EvDigest p :: rest).

(** The time cap as seen in the trace [tr] of a request: with
    [deadline = start + time_limit_ms / 1000.0], where [start] is the first
    clock reading, every digest is directly preceded by a clock reading
    below the deadline, and no digest follows a later clock reading that is
    not below the deadline.  When the time limit has no float value, no
    digest is computed at all. *)
Definition attempts_checked (start : Py.float) (time_limit : Z)
    (tr : list event) : Prop :=
  match Py.float_of_int time_limit with
  | inr limit =>
      let deadline := Py.fadd start (Py.fdiv limit Py.f1000) in
      (forall pre p post,
         tr = pre ++ EvDigest p :: post ->
         exists pre' t, pre = pre' ++ [EvClock t] /\ Py.flt t deadline = true) /\
      (forall pre t post,
         tr = pre ++ EvClock t :: post -> pre <> [] ->
         Py.flt t deadline = false -> digests post = [])
  | inl _ => digests tr = []
  end.

Definition is_hex_char (c : ascii) : bool :=
  match c with
  | "0" | "1" | "2" | "3" | "4" | "5" | "6" | "7" | "8" | "9"
  | "a" | "b" | "c" | "d" | "e" | "f" => true
  | _ => false
  end%char.

Fixpoint all_hex (s : string) : bool :=
  match s with
  | EmptyString => true
  | String c s' => is_hex_char c && all_hex s'
  end.

(** A clock that always reads [0.0]: the deadline of a positive time limit
    is never reached. *)
Definition frozen_clock : nat -> Py.float := fun _ => S754_zero false.

(** A clock that advances by one second per reading. *)
Definition ticking_clock : nat -> Py.float :=
  fun k => binary_normalize Py.prec Py.emax (Z.of_nat k) 0 false.

(** *** Sample requests *)

(** The default data at difficulty 1, searched from nonce 20. *)
Definition req_from_20 : MineRequest :=
  mkMineRequest "Hello, Bitcoin!" 1 20 200000 1500.

(** The same search started at nonce 154. *)
Definition req_from_154 : MineRequest :=
  mkMineRequest "Hello, Bitcoin!" 1 154 200000 1500.

(** The search from nonce 154 again, capped at 5 attempts and 5 seconds. *)
Definition req_from_154_small_caps : MineRequest :=
  mkMineRequest "Hello, Bitcoin!" 1 154 5 5000.

(** A body that only sets a negative attempt cap. *)
Definition body_negative_cap : MineBody :=
  mkMineBody None None None (Some (-1)) None.

(** A body that only sets an attempt cap above the ceiling. *)
Definition body_large_cap : MineBody :=
  mkMineBody None None None (Some 1000001) None.

(** The defaults, at difficulty 4. *)
Definition req_defaults : MineRequest :=
  mkMineRequest "Hello, Bitcoin!" 4 0 200000 1500.

(** A body that only sets a time limit of 10^400 milliseconds. *)
Definition body_huge_time_limit : MineBody :=
  mkMineBody None None None None (Some (10 ^ 400)).

(** The empty body: every field takes its default. *)
Definition body_defaults : MineBody :=
  mkMineBody None None None None None.

(** The search from nonce 154 capped at one attempt. *)
Definition req_154_cap_1 : MineRequest :=
  mkMineRequest "Hello, Bitcoin!" 1 154 1 1500.

(** The search from nonce 155. *)
Definition req_from_155 : MineRequest :=
  mkMineRequest "Hello, Bitcoin!" 1 155 200000 1500.

(** A cap of zero attempts. *)
Definition req_zero_cap : MineRequest :=
  mkMineRequest "Hello, Bitcoin!" 1 0 0 1500.

(** A body that only sets a difficulty of 8. *)
Definition body_difficulty_8 : MineBody :=
  mkMineBody None (Some 8) None None None.

(* ===================================================================== *)
(** ** GET /test                                                         *)
(* ===================================================================== *)

Module Diagnostic.

(** An exception raised by the optional [database] collaborator: whether
    it is an [ImportError], and its text [str(e)]. *)
Record pyexc : Type := mkExc { import_error : bool; text : string }.

(** An attribute lookup on the collaborator: [AttrMissing] when the lookup
    raises [AttributeError], [AttrRaises] when it raises anything else. *)
Inductive attr : Type :=
| AttrMissing
| AttrValue (v : string)
| AttrRaises (e : pyexc).

(** The handle [db]: its attribute [name] and what
    [db.list_collection_names()] does. *)
Record database : Type := mkDatabase {
  db_name : attr;
  db_list_collection_names : pyexc + list string
}.

(** What [from database import db] does: it raises, or binds [db] to
    [None] or to a handle. *)
Inductive import_result : Type :=
| ImportRaises (e : pyexc)
| Imported (db : option database).

(** The dict returned by [test_database]. *)
Record response : Type := mkResponse {
  backend : string;
  database_status : string;
  database_url : option string;
  database_name : option string;
  connection_status : string;
  collections : list string
}.

Definition set_database (v : string) (r : response) : response :=
  mkResponse (backend r) v (database_url r) (database_name r)
    (connection_status r) (collections r).

Definition set_database_url (v : option string) (r : response) : response :=
  mkResponse (backend r) (database_status r) v (database_name r)
    (connection_status r) (collections r).

Definition set_database_name (v : option string) (r : response) : response :=
  mkResponse (backend r) (database_status r) (database_url r) v
    (connection_status r) (collections r).

Definition set_connection_status (v : string) (r : response) : response :=
  mkResponse (backend r) (database_status r) (database_url r) (database_name r)
    v (collections r).

Definition set_collections (v : list string) (r : response) : response :=
  mkResponse (backend r) (database_status r) (database_url r) (database_name r)
    (connection_status r) v.

(** A byte of the form 10xxxxxx continues a UTF-8 character. *)
Definition is_continuation (c : ascii) : bool :=
  let n := nat_of_ascii c in (128 <=? n)%nat && (n <? 192)%nat.

(** Number of characters of a string held as UTF-8 bytes. *)
Fixpoint char_count (s : string) : nat :=
  match s with
  | EmptyString => O
  | String c s' => if is_continuation c then char_count s' else S (char_count s')
  end.

(** [s[:n]]: the first [n] characters. *)
Fixpoint str_take (n : nat) (s : string) : string :=
  match s with
  | EmptyString => EmptyString
  | String c s' =>
      if is_continuation c then String c (str_take n s')
      else
        match n with
        | O => EmptyString
        | S n' => String c (str_take n' s')
        end
  end.

(** Truth value of [os.getenv(name)]: set and not empty. *)
Definition truthy (v : option string) : bool :=
  match v with
  | Some (String _ _) => true
  | _ => false
  end.

Definition initial_response : response :=
  mkResponse "✅ Running" "❌ Not Available" None None "Not Connected" [].

(** The branch [if db is not None] of the [try] block.  The dict is
    updated in place, so an exception leaves the updates made before it. *)
Definition with_handle (db : database) (r : response) : option pyexc * response :=
  let r := set_database "✅ Available" r in
  let r := set_database_url (Some "✅ Configured"%string) r in
  match db_name db with
  | AttrRaises e => (Some e, r)
  | a =>
      let name :=
        match a with
        | AttrValue v => v
        | _ => "✅ Connected"%string
        end in
      let r := set_database_name (Some name) r in
      let r := set_connection_status "Connected" r in
      match db_list_collection_names db with
      | inr cs =>
          let r := set_collections (List.firstn 10 cs) r in
          (None, set_database "✅ Connected & Working" r)
      | inl e =>
          (None, set_database ("⚠️  Connected but Error: " ++ str_take 50 (text e)) r)
      end
  end.

(** The [try] block. *)
Definition try_block (imp : import_result) (r : response) : option pyexc * response :=
  match imp with
  | ImportRaises e => (Some e, r)
  | Imported (Some db) => with_handle db r
  | Imported None => (None, set_database "⚠️  Available but not initialized" r)
  end.

(** [test_database]: [imp] is the behaviour of the collaborator and
    [getenv] the process environment. *)
Definition test_database (imp : import_result) (getenv : string -> option string)
  : response :=
  let '(exc, r) := try_block imp initial_response in
  let r :=
    match exc with
    | None => r
    | Some e =>
        if import_error e then set_database "❌ Database module not found (run enable-database first)" r
        else set_database ("❌ Error: " ++ str_take 50 (text e)) r
    end in
  let r :=
    set_database_url
      (Some (if truthy (getenv "DATABASE_URL") then "✅ Set" else "❌ Not Set"))%string r in
  set_database_name
    (Some (if truthy (getenv "DATABASE_NAME") then "✅ Set" else "❌ Not Set"))%string r.

End Diagnostic.

(* ===================================================================== *)
(** ** The search loop                                                   *)
(* ===================================================================== *)

Arguments sha256_hex : simpl never.
Arguments payload_of : simpl never.
#[global] Opaque sha256_hex.

Section LoopFacts.

Variable clock : nat -> Py.float.
Variable req : MineRequest.
Variable prefix : string.
Variable deadline : Py.float.

Local Notation "'loop'" := (mine_loop clock req prefix deadline).

(** One turn of the loop, with the effects written out. *)
Lemma mine_loop_unfold fuel l w :
  loop fuel l w =
  if l_tried l <? max_hashes req then
    let t := clock (reads w) in
    let w1 := mkWorld (S (reads w)) (trace w ++ [EvClock t]) in
    if Py.flt t deadline then
      match fuel with
      | O => (OutOfFuel, w1)
      | S fuel' =>
          let pl := payload_of (data req) (l_nonce l) in
          let w2 := mkWorld (S (reads w)) ((trace w ++ [EvClock t]) ++ [EvDigest pl]) in
          if Py.startswith (sha256_hex pl) prefix then
            (Ok (mkLocals (l_tried l + 1) (l_nonce l)
                   (Some (sha256_hex pl)) (Some (l_nonce l))), w2)
          else
            loop fuel' (mkLocals (l_tried l + 1) (l_nonce l + 1)
                          (l_found_hash l) (l_found_nonce l)) w2
      end
    else (Ok l, w1)
  else (Ok l, w).
Proof.
  destruct fuel; cbn [mine_loop];
    (destruct (l_tried l <? max_hashes req); [|reflexivity]);
    cbv beta iota zeta delta [bind perf_counter sha256_hexdigest ret out_of_fuel];
    (destruct (Py.flt (clock (reads w)) deadline); [|reflexivity]);
    [reflexivity|].
  cbv beta iota delta [reads trace].
  destruct (Py.startswith (sha256_hex (payload_of (data req) (l_nonce l))) prefix);
    reflexivity.
Qed.

(** The loop never raises. *)
Lemma mine_loop_no_raise fuel : forall l w e w',
  loop fuel l w <> (Raise e, w').
Proof.
  induction fuel as [|fuel IH]; intros l w e w'; rewrite mine_loop_unfold;
    destruct (l_tried l <? max_hashes req); try discriminate;
    cbv zeta; destruct (Py.flt (clock (reads w)) deadline); try discriminate.
  destruct (Py.startswith _ prefix); [discriminate | apply IH].
Qed.

(** What the loop leaves in its variables when it ends. *)
Lemma mine_loop_result fuel : forall l w l' w',
  loop fuel l w = (Ok l', w') ->
  l_found_nonce l = None -> l_found_hash l = None ->
  l_tried l <= l_tried l' <= Z.max (l_tried l) (max_hashes req) /\
  (forall m, l_nonce l <= m < l_nonce l' ->
     Py.startswith (digest_at (data req) m) prefix = false) /\
  match l_found_nonce l' with
  | Some n =>
      n = l_nonce l' /\ l_nonce l <= n /\
      l_nonce l' = l_nonce l + (l_tried l' - l_tried l) - 1 /\
      l_found_hash l' = Some (digest_at (data req) n) /\
      Py.startswith (digest_at (data req) n) prefix = true
  | None =>
      l_found_hash l' = None /\
      l_nonce l' = l_nonce l + (l_tried l' - l_tried l)
  end.
Proof.
  induction fuel as [|fuel IH]; intros l w l' w' Hrun Hn Hh;
    rewrite mine_loop_unfold in Hrun;
    destruct (l_tried l <? max_hashes req) eqn:Hguard;
    cbv zeta in Hrun.
  - destruct (Py.flt (clock (reads w)) deadline); [discriminate|].
    injection Hrun as <- _. rewrite Hn. repeat split; try lia; auto.
  - injection Hrun as <- _. rewrite Hn. repeat split; try lia; auto.
  - apply Z.ltb_lt in Hguard.
    destruct (Py.flt (clock (reads w)) deadline).
    + destruct (Py.startswith _ prefix) eqn:Hm.
      * injection Hrun as <- _. simpl. repeat split; try lia; auto.
      * apply IH in Hrun; simpl in *; auto.
        destruct Hrun as (Htr & Hbefore & Hfound).
        split; [lia|]. split.
        -- intros m Hm'. destruct (Z.eq_dec m (l_nonce l)) as [->|Hne].
           ++ exact Hm.
           ++ apply Hbefore. lia.
        -- destruct (l_found_nonce l'); intuition lia.
    + injection Hrun as <- _. rewrite Hn. repeat split; try lia; auto.
  - injection Hrun as <- _. rewrite Hn. repeat split; try lia; auto.
Qed.

(** What the loop appends to the trace, whatever its outcome. *)
Lemma mine_loop_trace fuel : forall l w o w',
  loop fuel l w = (o, w') ->
  exists tr,
    trace w' = trace w ++ tr /\
    checked_attempts deadline tr /\
    digests tr =
      List.map (payload_of (data req))
        (nonces_from (l_nonce l) (List.length (digests tr))) /\
    (List.length (digests tr) <= fuel)%nat /\
    Z.of_nat (List.length (digests tr)) <= Z.max 0 (max_hashes req - l_tried l) /\
    (forall l', o = Ok l' ->
       Z.of_nat (List.length (digests tr)) = l_tried l' - l_tried l).
Proof.
  induction fuel as [|fuel IH]; intros l w o w' Hrun;
    rewrite mine_loop_unfold in Hrun;
    destruct (l_tried l <? max_hashes req) eqn:Hguard;
    cbv zeta in Hrun.
  - destruct (Py.flt (clock (reads w)) deadline) eqn:Ht;
      injection Hrun as <- <-; exists [EvClock (clock (reads w))]; simpl;
      (split; [reflexivity|]); (split; [constructor; assumption|]);
      (split; [reflexivity|]); (split; [lia|]); (split; [lia|]).
    + intros l' H; discriminate.
    + intros l' H; injection H as <-; lia.
  - injection Hrun as <- <-. exists []. rewrite app_nil_r. simpl.
    repeat split; try lia; try constructor. intros l' H; injection H as <-; lia.
  - apply Z.ltb_lt in Hguard.
    destruct (Py.flt (clock (reads w)) deadline) eqn:Ht.
    + destruct (Py.startswith _ prefix) eqn:Hm.
      * injection Hrun as <- <-.
        exists [EvClock (clock (reads w)); EvDigest (payload_of (data req) (l_nonce l))].
        simpl. rewrite <- app_assoc. simpl.
        repeat split; try lia.
        -- apply ca_attempt; [assumption | constructor].
        -- intros l' H; injection H as <-; simpl; lia.
      * apply IH in Hrun.
        destruct Hrun as (tr & Htr & Hca & Hd & Hlen & Hmax & Hcount).
        simpl in *.
        exists (EvClock (clock (reads w)) :: EvDigest (payload_of (data req) (l_nonce l)) :: tr).
        split; [rewrite Htr, <- !app_assoc; reflexivity|].
        split; [apply ca_attempt; assumption|].
        simpl. split; [f_equal; exact Hd|]. split; [lia|]. split; [lia|].
        intros l' H. specialize (Hcount l' H). lia.
    + injection Hrun as <- <-. exists [EvClock (clock (reads w))]. simpl.
      repeat split; try lia.
      * apply ca_expired; assumption.
      * intros l' H; injection H as <-; lia.
  - injection Hrun as <- <-. exists []. rewrite app_nil_r. simpl.
    repeat split; try lia; try constructor. intros l' H; injection H as <-; lia.
Qed.

(** A budget of [max_hashes - tried] turns is enough for the loop to end. *)
Lemma mine_loop_terminates fuel : forall l w,
  (Z.to_nat (max_hashes req - l_tried l) <= fuel)%nat ->
  exists l' w', loop fuel l w = (Ok l', w').
Proof.
  induction fuel as [|fuel IH]; intros l w Hfuel;
    rewrite mine_loop_unfold;
    destruct (l_tried l <? max_hashes req) eqn:Hguard;
    cbv zeta; try (eexists; eexists; reflexivity).
  - apply Z.ltb_lt in Hguard. lia.
  - apply Z.ltb_lt in Hguard.
    destruct (Py.flt (clock (reads w)) deadline); [|eexists; eexists; reflexivity].
    destruct (Py.startswith _ prefix); [eexists; eexists; reflexivity|].
    apply IH. simpl. lia.
Qed.

End LoopFacts.

(* ===================================================================== *)
(** ** Strings and traces                                                *)
(* ===================================================================== *)

(** A string that starts with [n] zeros has at least [n] leading zeros. *)
Lemma startswith_zeros_leading (n : nat) : forall h,
  Py.startswith h (Py.str_repeat "0" n) = true ->
  (n <= leading_zeros h)%nat.
Proof.
  unfold Py.startswith.
  induction n as [|n IH]; intros h H; [lia|].
  cbn [Py.str_repeat append] in H.
  destruct h as [|c h]; cbn [String.prefix] in H; [discriminate|].
  destruct (ascii_dec "0" c) as [<-|]; [|discriminate].
  cbn [leading_zeros]. apply IH in H. lia.
Qed.

Lemma digests_app (tr1 tr2 : list event) :
  digests (tr1 ++ tr2) = digests tr1 ++ digests tr2.
Proof.
  induction tr1 as [|[t|p] tr1 IH]; simpl; [reflexivity | exact IH | f_equal; exact IH].
Qed.

(** In the events of the loop, a digest directly follows a clock reading
    below the deadline. *)
Lemma checked_attempts_digest deadline tr :
  checked_attempts deadline tr ->
  forall pre p post, tr = pre ++ EvDigest p :: post ->
  exists pre' t, pre = pre' ++ [EvClock t] /\ Py.flt t deadline = true.
Proof.
  induction 1 as [|t Ht|t Ht|t p0 rest Ht Hrest IH]; intros pre p post Heq.
  - destruct pre; discriminate.
  - destruct pre as [|x [|y pre]]; discriminate.
  - destruct pre as [|x [|y pre]]; discriminate.
  - destruct pre as [|x [|y pre]].
    + discriminate.
    + injection Heq as <- _ _. exists [], t. split; [reflexivity | exact Ht].
    + injection Heq as <- <- Heq.
      destruct (IH _ _ _ Heq) as (pre' & t' & -> & Ht').
      exists (EvClock t :: EvDigest p0 :: pre'), t'. split; [reflexivity | exact Ht'].
Qed.

(** In the events of the loop, a clock reading that is not below the
    deadline is the last event. *)
Lemma checked_attempts_expired deadline tr :
  checked_attempts deadline tr ->
  forall pre t post, tr = pre ++ EvClock t :: post ->
  Py.flt t deadline = false -> post = [].
Proof.
  induction 1 as [|t0 Ht0|t0 Ht0|t0 p0 rest Ht0 Hrest IH]; intros pre t post Heq Ht.
  - destruct pre; discriminate.
  - destruct pre as [|x [|y pre]]; try discriminate.
    injection Heq as _ <-. reflexivity.
  - destruct pre as [|x [|y pre]]; try discriminate.
    injection Heq as -> _. congruence.
  - destruct pre as [|x [|y pre]].
    + injection Heq as -> _. congruence.
    + discriminate.
    + injection Heq as _ _ Heq. exact (IH _ _ _ Heq Ht).
Qed.

(** Splitting a list that ends with a clock reading at a digest. *)
Lemma split_digest_before_last (tr : list event) s pre p post :
  tr ++ [EvClock s] = pre ++ EvDigest p :: post ->
  exists post', post = post' ++ [EvClock s] /\ tr = pre ++ EvDigest p :: post'.
Proof.
  intros Heq. destruct post as [|x post] using rev_ind.
  - apply (app_inj_tail tr pre) in Heq. destruct Heq as [_ Heq]. discriminate.
  - clear IHpost.
    change (pre ++ EvDigest p :: post ++ [x]) with (pre ++ (EvDigest p :: post) ++ [x]) in Heq.
    rewrite app_assoc in Heq. apply app_inj_tail in Heq. destruct Heq as [-> <-].
    exists post. split; reflexivity.
Qed.

(** Splitting a list that ends with a clock reading at a clock reading. *)
Lemma split_clock_before_last (tr : list event) s pre t post :
  tr ++ [EvClock s] = pre ++ EvClock t :: post ->
  (post = [] /\ tr = pre /\ s = t) \/
  (exists post', post = post' ++ [EvClock s] /\ tr = pre ++ EvClock t :: post').
Proof.
  intros Heq. destruct post as [|x post] using rev_ind.
  - apply (app_inj_tail tr pre) in Heq. destruct Heq as [-> Heq].
    injection Heq as ->. left. repeat split.
  - clear IHpost.
    change (pre ++ EvClock t :: post ++ [x]) with (pre ++ (EvClock t :: post) ++ [x]) in Heq.
    rewrite app_assoc in Heq. apply app_inj_tail in Heq. destruct Heq as [-> <-].
    right. exists post. split; reflexivity.
Qed.

(* ===================================================================== *)
(** ** The handler [mine]                                                *)
(* ===================================================================== *)

Section MineFacts.

Variable clock : nat -> Py.float.

(** The handler with its effects written out. *)
Lemma mine_unfold fuel req w :
  mine clock fuel req w =
  if max_hashes req >? 1000000 then
    (Raise (Py.HTTPException 400 "max_hashes too large; must be <= 1,000,000"), w)
  else
    let start := clock (reads w) in
    let w1 := mkWorld (S (reads w)) (trace w ++ [EvClock start]) in
    match Py.float_of_int (time_limit_ms req) with
    | inl e => (Raise e, w1)
    | inr limit =>
        let deadline := Py.fadd start (Py.fdiv limit Py.f1000) in
        match mine_loop clock req (Py.str_mul "0" (difficulty req)) deadline fuel
                (mkLocals 0 (start_nonce req) None None) w1 with
        | (Ok l, w2) =>
            let stop := clock (reads w2) in
            let w3 := mkWorld (S (reads w2)) (trace w2 ++ [EvClock stop]) in
            match Py.int_of_float (Py.fmul (Py.fsub stop start) Py.f1000) with
            | inl e => (Raise e, w3)
            | inr elapsed =>
                (Ok (mkMineResult (is_some (l_found_nonce l)) (l_found_nonce l)
                       (l_found_hash l) (l_tried l) elapsed
                       (Py.str_mul "0" (difficulty req))), w3)
            end
        | (Raise e, w2) => (Raise e, w2)
        | (OutOfFuel, w2) => (OutOfFuel, w2)
        end
    end.
Proof.
  unfold mine.
  destruct (max_hashes req >? 1000000); [reflexivity|].
  cbv beta iota zeta delta [bind perf_counter ret lift raise].
  destruct (Py.float_of_int (time_limit_ms req)) as [e|limit]; [reflexivity|].
  cbv beta iota zeta delta [reads trace].
  destruct (mine_loop clock req _ _ fuel _ _) as [[l|e|] w2]; try reflexivity.
  destruct (Py.int_of_float _); reflexivity.
Qed.

(** A returned result comes from a completed loop. *)
Lemma mine_Ok_inv fuel req w r w' :
  mine clock fuel req w = (Ok r, w') ->
  max_hashes req <= 1000000 /\
  exists limit l w2,
    Py.float_of_int (time_limit_ms req) = inr limit /\
    mine_loop clock req (Py.str_mul "0" (difficulty req))
      (Py.fadd (clock (reads w)) (Py.fdiv limit Py.f1000)) fuel
      (mkLocals 0 (start_nonce req) None None)
      (mkWorld (S (reads w)) (trace w ++ [EvClock (clock (reads w))])) = (Ok l, w2) /\
    trace w' = trace w2 ++ [EvClock (clock (reads w2))] /\
    found r = is_some (l_found_nonce l) /\
    nonce r = l_found_nonce l /\
    hash_hex r = l_found_hash l /\
    tried_hashes r = l_tried l /\
    target_prefix r = Py.str_mul "0" (difficulty req).
Proof.
  rewrite mine_unfold. intros Hrun.
  destruct (max_hashes req >? 1000000) eqn:Hcap; [discriminate|].
  split; [lia|].
  cbv zeta in Hrun.
  destruct (Py.float_of_int (time_limit_ms req)) as [e|limit]; [discriminate|].
  destruct (mine_loop clock req _ _ fuel _ _) as [[l|e|] w2] eqn:Hloop; try discriminate.
  destruct (Py.int_of_float _); [discriminate|].
  injection Hrun as <- <-.
  exists limit, l, w2. simpl. repeat split. exact Hloop.
Qed.

(** The events of a run of the handler from the initial world. *)
Lemma mine_trace_shape fuel req o w :
  mine clock fuel req init_world = (o, w) ->
  (1000000 < max_hashes req /\ w = init_world /\
   o = Raise (Py.HTTPException 400 "max_hashes too large; must be <= 1,000,000")) \/
  (max_hashes req <= 1000000 /\
   exists e, Py.float_of_int (time_limit_ms req) = inl e /\
     o = Raise e /\ trace w = [EvClock (clock 0%nat)]) \/
  (max_hashes req <= 1000000 /\
   exists limit tr tail,
     Py.float_of_int (time_limit_ms req) = inr limit /\
     trace w = EvClock (clock 0%nat) :: tr ++ tail /\
     checked_attempts (Py.fadd (clock 0%nat) (Py.fdiv limit Py.f1000)) tr /\
     (tail = [] \/ exists t, tail = [EvClock t]) /\
     digests tr =
       List.map (payload_of (data req))
         (nonces_from (start_nonce req) (List.length (digests tr))) /\
     (List.length (digests tr) <= fuel)%nat /\
     Z.of_nat (List.length (digests tr)) <= Z.max 0 (max_hashes req) /\
     (forall r, o = Ok r -> tried_hashes r = Z.of_nat (List.length (digests tr)))).
Proof.
  rewrite mine_unfold. intros Hrun.
  destruct (max_hashes req >? 1000000) eqn:Hcap.
  { left. injection Hrun as <- <-. repeat split. lia. }
  right.
  assert (Hle : max_hashes req <= 1000000) by lia.
  cbv zeta in Hrun. simpl reads in Hrun. simpl trace in Hrun.
  destruct (Py.float_of_int (time_limit_ms req)) as [e|limit].
  { left. split; [exact Hle|]. exists e. injection Hrun as <- <-. repeat split. }
  right. split; [exact Hle|].
  destruct (mine_loop clock req _ _ fuel _ _) as [lo w2] eqn:Hloop.
  destruct (mine_loop_trace _ _ _ _ _ _ _ _ _ Hloop)
    as (tr & Htr & Hca & Hd & Hlen & Hmax & Hcount).
  simpl in Htr, Hd, Hmax, Hcount. rewrite Z.sub_0_r in Hmax.
  destruct lo as [l|e|].
  - exists limit, tr, [EvClock (clock (reads w2))].
    specialize (Hcount l eq_refl). rewrite Z.sub_0_r in Hcount.
    assert (Hw : trace w = EvClock (clock 0%nat) :: tr ++ [EvClock (clock (reads w2))]).
    { destruct (Py.int_of_float _); injection Hrun as <- <-; simpl; rewrite Htr; reflexivity. }
    repeat split; auto.
    + right. eexists; reflexivity.
    + intros r Hr. destruct (Py.int_of_float _); [subst o; discriminate|].
      injection Hrun as Ho _. rewrite Hr in Ho. injection Ho as <-. simpl. lia.
  - exfalso. exact (mine_loop_no_raise _ _ _ _ _ _ _ _ _ Hloop).
  - injection Hrun as <- <-. exists limit, tr, [].
    rewrite app_nil_r. repeat split; auto.
    intros r Hr; discriminate.
Qed.

End MineFacts.

(* ===================================================================== *)
(** ** Properties of the search result                                   *)
(* ===================================================================== *)

(** What a returned result says about the search, in one statement. *)
Lemma mine_result_facts clock fuel req w0 r w :
  mine clock fuel req w0 = (Ok r, w) ->
  0 <= tried_hashes r <= Z.max 0 (max_hashes req) /\
  target_prefix r = Py.str_mul "0" (difficulty req) /\
  match nonce r with
  | Some n =>
      found r = true /\ start_nonce req <= n /\
      n = start_nonce req + tried_hashes r - 1 /\
      hash_hex r = Some (digest_at (data req) n) /\
      prefix_condition (data req) (difficulty req) n = true /\
      (forall m, start_nonce req <= m < n ->
         prefix_condition (data req) (difficulty req) m = false)
  | None => found r = false /\ hash_hex r = None
  end.
Proof.
  intros Hrun.
  destruct (mine_Ok_inv _ _ _ _ _ _ Hrun)
    as (_ & limit & l & w2 & _ & Hloop & _ & Hf & Hn & Hh & Ht & Hp).
  apply mine_loop_result in Hloop; [|reflexivity|reflexivity].
  simpl in Hloop. destruct Hloop as (Htried & Hbefore & Hfound).
  rewrite Hf, Hn, Hh, Ht, Hp.
  split; [lia|]. split; [reflexivity|].
  unfold prefix_condition.
  destruct (l_found_nonce l) as [n|].
  - destruct Hfound as (-> & Hge & Hoff & Hhash & Hmatch).
    repeat split; auto. lia.
  - destruct Hfound as (Hhash & _). split; [reflexivity | exact Hhash].
Qed.

(** C1 (as amended): when [found] is true, [hash_hex] is the SHA-256 hex
    digest of the bytes of [data], the delimiter "|" and the decimal nonce,
    it starts with the target prefix, and so has at least [difficulty]
    leading '0' characters. *)
Theorem mine_found_digest clock fuel req r w :
  mine clock fuel req init_world = (Ok r, w) ->
  found r = true ->
  exists n h,
    nonce r = Some n /\ hash_hex r = Some h /\
    h = sha256_hex (Py.encode (data req ++ "|" ++ Py.str n)) /\
    Py.startswith h (target_prefix r) = true /\
    target_prefix r = Py.str_mul "0" (difficulty req) /\
    difficulty req <= Z.of_nat (leading_zeros h).
Proof.
  intros Hrun Hfound.
  destruct (mine_result_facts _ _ _ _ _ _ Hrun) as (_ & Hp & Hres).
  destruct (nonce r) as [n|]; [|destruct Hres; congruence].
  destruct Hres as (_ & _ & _ & Hh & Hm & _).
  exists n, (digest_at (data req) n).
  rewrite Hp. repeat split; auto.
  apply startswith_zeros_leading in Hm. lia.
Qed.

(** The search from nonce 20 at difficulty 1 returns after one attempt. *)
Lemma mine_found_digest_witness :
  exists r w,
    mine frozen_clock 1 req_from_20 init_world = (Ok r, w) /\
    found r = true /\
    exists n h,
      nonce r = Some n /\ hash_hex r = Some h /\
      h = sha256_hex (Py.encode (data req_from_20 ++ "|" ++ Py.str n)) /\
      Py.startswith h (target_prefix r) = true /\
      target_prefix r = Py.str_mul "0" (difficulty req_from_20) /\
      difficulty req_from_20 <= Z.of_nat (leading_zeros h).
Proof.
  eexists. eexists.
  split; [vm_compute; reflexivity|].
  split; [reflexivity|].
  eapply (mine_found_digest frozen_clock 1 req_from_20); vm_compute; reflexivity.
Defined.

(** C1 (as stated) fails: at difficulty 1 the search from nonce 154 returns
    the digest of nonce 155, which has two leading '0' characters. *)
Lemma mine_found_extra_zero :
  exists r w,
    mine frozen_clock 2 req_from_154 init_world = (Ok r, w) /\
    found r = true /\
    nonce r = Some 155 /\
    hash_hex r =
      Some "00c62f956757dee6bc454ddde5180af1f171060689aa0d9f5fce0dba03d5982d"%string /\
    difficulty req_from_154 = 1 /\
    exists h, hash_hex r = Some h /\
      Z.of_nat (leading_zeros h) <> difficulty req_from_154.
Proof.
  eexists. eexists.
  split; [vm_compute; reflexivity|].
  repeat split.
  eexists. split; [reflexivity|]. vm_compute. discriminate.
Qed.

(** C2: when [found] is true, the returned nonce satisfies the prefix
    condition, no integer of [start_nonce, nonce) does, so it is the least
    integer from [start_nonce] on that does; the candidates hashed are
    exactly start_nonce, start_nonce + 1, ..., nonce, in this order. *)
Theorem mine_first_match clock fuel req r w :
  mine clock fuel req init_world = (Ok r, w) ->
  found r = true ->
  exists n,
    nonce r = Some n /\ start_nonce req <= n /\
    prefix_condition (data req) (difficulty req) n = true /\
    (forall m, start_nonce req <= m < n ->
       prefix_condition (data req) (difficulty req) m = false) /\
    (forall m, start_nonce req <= m ->
       prefix_condition (data req) (difficulty req) m = true -> n <= m) /\
    digests (trace w) =
      List.map (payload_of (data req))
        (nonces_from (start_nonce req) (Z.to_nat (n - start_nonce req + 1))).
Proof.
  intros Hrun Hfound.
  destruct (mine_result_facts _ _ _ _ _ _ Hrun) as (Htried & _ & Hres).
  destruct (nonce r) as [n|] eqn:Hnonce; [|destruct Hres; congruence].
  destruct Hres as (_ & Hge & Hoff & _ & Hm & Hbefore).
  destruct (mine_trace_shape _ _ _ _ _ Hrun)
    as [(_ & _ & Ho) | [(_ & e & _ & Ho & _) | (_ & limit & tr & tail & _ & Htr & _ & Htail & Hd & _ & _ & Hcount)]];
    try discriminate.
  specialize (Hcount r eq_refl).
  exists n. split; [reflexivity|]. split; [exact Hge|]. split; [exact Hm|].
  split; [exact Hbefore|]. split.
  - intros m Hm_ge Hsat. destruct (Z_lt_le_dec m n) as [Hlt|]; [|assumption].
    rewrite (Hbefore m) in Hsat by lia. discriminate.
  - rewrite Htr. cbn [digests]. rewrite digests_app.
    assert (Hdt : digests tail = []).
    { destruct Htail as [->|[t ->]]; reflexivity. }
    rewrite Hdt, app_nil_r.
    replace (Z.to_nat (n - start_nonce req + 1)) with (List.length (digests tr)) by lia.
    exact Hd.
Qed.

(** The search from nonce 154 at difficulty 1 finds nonce 155. *)
Lemma mine_first_match_witness :
  exists r w,
    mine frozen_clock 2 req_from_154 init_world = (Ok r, w) /\
    found r = true /\
    exists n,
      nonce r = Some n /\ start_nonce req_from_154 <= n /\
      prefix_condition (data req_from_154) (difficulty req_from_154) n = true /\
      (forall m, start_nonce req_from_154 <= m < n ->
         prefix_condition (data req_from_154) (difficulty req_from_154) m = false) /\
      (forall m, start_nonce req_from_154 <= m ->
         prefix_condition (data req_from_154) (difficulty req_from_154) m = true -> n <= m) /\
      digests (trace w) =
        List.map (payload_of (data req_from_154))
          (nonces_from (start_nonce req_from_154)
             (Z.to_nat (n - start_nonce req_from_154 + 1))).
Proof.
  eexists. eexists.
  split; [vm_compute; reflexivity|].
  split; [reflexivity|].
  eapply (mine_first_match frozen_clock 2 req_from_154); vm_compute; reflexivity.
Defined.

(** C3 (as amended): the returned [tried_hashes] is at least 0 and at most
    [max (max_hashes, 0)]; hence at most [max_hashes] when the cap is not
    negative, and 0 when it is. *)
Theorem mine_tried_bound clock fuel req r w :
  mine clock fuel req init_world = (Ok r, w) ->
  0 <= tried_hashes r <= Z.max 0 (max_hashes req) /\
  (0 <= max_hashes req -> tried_hashes r <= max_hashes req) /\
  (max_hashes req < 0 -> tried_hashes r = 0).
Proof.
  intros Hrun.
  destruct (mine_result_facts _ _ _ _ _ _ Hrun) as (Htried & _).
  lia.
Qed.

(** Under the cap of 5 attempts, the search from nonce 154 makes 2. *)
Lemma mine_tried_bound_witness :
  exists r w,
    mine frozen_clock 5 req_from_154_small_caps init_world = (Ok r, w) /\
    tried_hashes r = 2 /\
    0 <= tried_hashes r <= Z.max 0 (max_hashes req_from_154_small_caps) /\
    (0 <= max_hashes req_from_154_small_caps ->
       tried_hashes r <= max_hashes req_from_154_small_caps) /\
    (max_hashes req_from_154_small_caps < 0 -> tried_hashes r = 0).
Proof.
  eexists. eexists.
  split; [vm_compute; reflexivity|].
  split; [reflexivity|].
  eapply (mine_tried_bound frozen_clock 5 req_from_154_small_caps); vm_compute; reflexivity.
Defined.

(** C3 (as stated) fails: a body with [max_hashes = -1] passes validation
    and the result has [tried_hashes = 0], which exceeds the cap. *)
Lemma mine_negative_cap_exceeded :
  exists req r w,
    validate body_negative_cap = inr req /\
    difficulty req = 4 /\ max_hashes req = -1 /\
    post_api_mine frozen_clock 0 body_negative_cap init_world = (Ok r, w) /\
    tried_hashes r = 0 /\
    ~ tried_hashes r <= max_hashes req.
Proof.
  eexists. eexists. eexists.
  split; [reflexivity|].
  split; [reflexivity|]. split; [reflexivity|].
  split; [vm_compute; reflexivity|].
  split; [reflexivity|]. simpl. lia.
Qed.

(** C10: when [found] is true, the returned nonce is
    [start_nonce + tried_hashes - 1]. *)
Theorem mine_nonce_offset clock fuel req r w :
  mine clock fuel req init_world = (Ok r, w) ->
  found r = true ->
  nonce r = Some (start_nonce req + tried_hashes r - 1).
Proof.
  intros Hrun Hfound.
  destruct (mine_result_facts _ _ _ _ _ _ Hrun) as (_ & _ & Hres).
  destruct (nonce r) as [n|]; [|destruct Hres; congruence].
  destruct Hres as (_ & _ & -> & _). reflexivity.
Qed.

(** From nonce 154 the match is the second attempt: 155 = 154 + 2 - 1. *)
Lemma mine_nonce_offset_witness :
  exists r w,
    mine frozen_clock 2 req_from_154 init_world = (Ok r, w) /\
    found r = true /\
    tried_hashes r = 2 /\
    nonce r = Some (start_nonce req_from_154 + tried_hashes r - 1).
Proof.
  eexists. eexists.
  split; [vm_compute; reflexivity|].
  split; [reflexivity|]. split; [reflexivity|].
  eapply (mine_nonce_offset frozen_clock 2 req_from_154); vm_compute; reflexivity.
Defined.

(** C7: two searches with the same data, difficulty and start nonce that
    both end with a match return the same nonce and the same digest,
    whatever their clocks and caps. *)
Theorem mine_deterministic clock1 clock2 fuel1 fuel2 req1 req2 r1 r2 w1 w2 :
  data req1 = data req2 ->
  difficulty req1 = difficulty req2 ->
  start_nonce req1 = start_nonce req2 ->
  mine clock1 fuel1 req1 init_world = (Ok r1, w1) ->
  mine clock2 fuel2 req2 init_world = (Ok r2, w2) ->
  found r1 = true -> found r2 = true ->
  nonce r1 = nonce r2 /\ hash_hex r1 = hash_hex r2.
Proof.
  intros Hd Hk Hs Hrun1 Hrun2 Hf1 Hf2.
  destruct (mine_result_facts _ _ _ _ _ _ Hrun1) as (_ & _ & Hres1).
  destruct (mine_result_facts _ _ _ _ _ _ Hrun2) as (_ & _ & Hres2).
  destruct (nonce r1) as [n1|]; [|destruct Hres1; congruence].
  destruct (nonce r2) as [n2|]; [|destruct Hres2; congruence].
  destruct Hres1 as (_ & Hge1 & _ & Hh1 & Hm1 & Hb1).
  destruct Hres2 as (_ & Hge2 & _ & Hh2 & Hm2 & Hb2).
  rewrite Hd, Hk, Hs in *.
  assert (Heq : n1 = n2).
  { destruct (Z.lt_trichotomy n1 n2) as [Hlt|[Heq|Hgt]]; [|exact Heq|].
    - rewrite (Hb2 n1) in Hm1 by lia. discriminate.
    - rewrite (Hb1 n2) in Hm2 by lia. discriminate. }
  subst n2. split; [reflexivity|]. rewrite Hh1, Hh2. reflexivity.
Qed.

(** The search from nonce 154 under a frozen clock with the default caps,
    and under a ticking clock with a cap of 5 attempts and 5 seconds. *)
Lemma mine_deterministic_witness :
  exists r1 r2 w1 w2,
    mine frozen_clock 2 req_from_154 init_world = (Ok r1, w1) /\
    mine ticking_clock 7 req_from_154_small_caps init_world = (Ok r2, w2) /\
    found r1 = true /\ found r2 = true /\
    nonce r1 = nonce r2 /\ hash_hex r1 = hash_hex r2.
Proof.
  eexists. eexists. eexists. eexists.
  split; [vm_compute; reflexivity|].
  split; [vm_compute; reflexivity|].
  split; [reflexivity|]. split; [reflexivity|].
  eapply (mine_deterministic frozen_clock ticking_clock 2 7
            req_from_154 req_from_154_small_caps);
    vm_compute; reflexivity.
Defined.

(* ===================================================================== *)
(** ** Rejections                                                        *)
(* ===================================================================== *)

(** The constraint on [difficulty]: a body is accepted exactly when its
    difficulty (4 when omitted) lies in [1, 7]. *)
Lemma validate_difficulty_range (b : MineBody) :
  let d := default 4 (body_difficulty b) in
  (1 <= d <= 7 -> exists req, validate b = inr req /\ difficulty req = d) /\
  (~ 1 <= d <= 7 -> validate b = inl (Py.RequestValidationError "difficulty")).
Proof.
  unfold validate. cbv zeta.
  destruct ((1 <=? default 4 (body_difficulty b)) && (default 4 (body_difficulty b) <=? 7)) eqn:E.
  - split; [|intros H; exfalso; apply H; lia].
    intros _. eexists. split; reflexivity.
  - split; [intros H; exfalso; lia | reflexivity].
Qed.

(** X10: a body whose difficulty is out of range never reaches the
    handler: it is refused with a validation error on [difficulty], with
    no clock reading and no digest. *)
Lemma post_api_mine_rejects_difficulty clock fuel b w0 :
  ~ 1 <= default 4 (body_difficulty b) <= 7 ->
  post_api_mine clock fuel b w0 =
    (Raise (Py.RequestValidationError "difficulty"), w0).
Proof.
  intros H. unfold post_api_mine.
  rewrite (proj2 (validate_difficulty_range b) H). reflexivity.
Qed.

(** C4: a request with [max_hashes > 1,000,000] is rejected with
    [HTTPException(400)] by the handler whatever its other fields, before
    the clock is read and before any digest is computed; at the route, a
    body with such a cap is rejected without any event and without a
    result. *)
Theorem mine_rejects_large_cap clock fuel :
  (forall req w0,
     1000000 < max_hashes req ->
     mine clock fuel req w0 =
       (Raise (Py.HTTPException 400 "max_hashes too large; must be <= 1,000,000"), w0)) /\
  (forall b m w0,
     body_max_hashes b = Some m -> 1000000 < m ->
     exists e,
       post_api_mine clock fuel b w0 = (Raise e, w0) /\
       (e = Py.HTTPException 400 "max_hashes too large; must be <= 1,000,000" \/
        e = Py.RequestValidationError "difficulty")).
Proof.
  assert (Hhandler : forall req w0,
     1000000 < max_hashes req ->
     mine clock fuel req w0 =
       (Raise (Py.HTTPException 400 "max_hashes too large; must be <= 1,000,000"), w0)).
  { intros req w0 Hcap. rewrite mine_unfold.
    destruct (max_hashes req >? 1000000) eqn:E; [reflexivity | lia]. }
  split; [exact Hhandler|].
  intros b m w0 Hb Hcap. unfold post_api_mine, validate.
  destruct ((1 <=? default 4 (body_difficulty b)) && (default 4 (body_difficulty b) <=? 7)).
  - eexists. split; [|left; reflexivity].
    apply Hhandler. simpl. rewrite Hb. exact Hcap.
  - eexists. split; [reflexivity | right; reflexivity].
Qed.

(** A cap of 1,000,001 with every other field at its default. *)
Lemma mine_rejects_large_cap_witness :
  1000000 < max_hashes (mkMineRequest "Hello, Bitcoin!" 4 0 1000001 1500) /\
  mine frozen_clock 0 (mkMineRequest "Hello, Bitcoin!" 4 0 1000001 1500) init_world =
    (Raise (Py.HTTPException 400 "max_hashes too large; must be <= 1,000,000"), init_world) /\
  body_max_hashes body_large_cap = Some 1000001 /\
  exists e,
    post_api_mine frozen_clock 0 body_large_cap init_world = (Raise e, init_world) /\
    (e = Py.HTTPException 400 "max_hashes too large; must be <= 1,000,000" \/
     e = Py.RequestValidationError "difficulty").
Proof.
  split; [simpl; lia|].
  split; [apply (proj1 (mine_rejects_large_cap frozen_clock 0)); simpl; lia|].
  split; [reflexivity|].
  apply (proj2 (mine_rejects_large_cap frozen_clock 0) body_large_cap 1000001);
    [reflexivity | lia].
Defined.

(** C5, at the failing input: a body that passes validation (difficulty 4,
    cap 200000) and asks for a time limit of 10^400 ms makes the handler
    raise [OverflowError] after its first clock reading, whatever the
    clock.  This exception is neither the validation error on
    [difficulty] nor the [HTTPException] of the cap. *)
Theorem mine_huge_time_limit_overflows clock fuel :
  exists req,
    validate body_huge_time_limit = inr req /\
    difficulty req = 4 /\ max_hashes req = 200000 /\
    post_api_mine clock fuel body_huge_time_limit init_world =
      (Raise (Py.OverflowError "int too large to convert to float"),
       mkWorld 1 [EvClock (clock 0%nat)]).
Proof.
  eexists. split; [reflexivity|]. split; [reflexivity|]. split; [reflexivity|].
  unfold post_api_mine.
  change (validate body_huge_time_limit)
    with (@inr Py.exn _ (mkMineRequest "Hello, Bitcoin!" 4 0 200000 (10 ^ 400))).
  cbv iota. rewrite mine_unfold. cbn [max_hashes time_limit_ms].
  change (200000 >? 1000000) with false. cbv iota zeta.
  replace (Py.float_of_int (10 ^ 400))
    with (@inl Py.exn Py.float (Py.OverflowError "int too large to convert to float"))
    by (vm_compute; reflexivity).
  reflexivity.
Qed.


(* ===================================================================== *)
(** ** The time cap                                                      *)
(* ===================================================================== *)

(** C6: the deadline is checked before each attempt.  In the trace of any
    run of the handler, each digest computation is directly preceded by a
    clock reading strictly below [deadline = start + time_limit_ms / 1000.0],
    and once a clock reading of the loop is not below the deadline no
    digest is computed any more. *)
Theorem mine_attempts_checked clock fuel req o w :
  mine clock fuel req init_world = (o, w) ->
  attempts_checked (clock 0%nat) (time_limit_ms req) (trace w).
Proof.
  intros Hrun. unfold attempts_checked.
  destruct (mine_trace_shape _ _ _ _ _ Hrun)
    as [(_ & -> & _) | [(_ & e & -> & _ & ->) | (_ & limit & tr & tail & -> & -> & Hca & Htail & _)]].
  - simpl. destruct (Py.float_of_int (time_limit_ms req)); [reflexivity|].
    split; intros pre ? post H; destruct pre; discriminate.
  - reflexivity.
  - cbv zeta. split.
    + intros pre p post Heq.
      destruct pre as [|x pre]; [discriminate|]. injection Heq as <- Heq.
      assert (Hin : exists post', tr = pre ++ EvDigest p :: post').
      { destruct Htail as [->|[s ->]].
        - rewrite app_nil_r in Heq. exists post. exact Heq.
        - apply split_digest_before_last in Heq.
          destruct Heq as (post' & _ & Heq). exists post'. exact Heq. }
      destruct Hin as (post' & Hin).
      destruct (checked_attempts_digest _ _ Hca _ _ _ Hin) as (pre' & t & -> & Ht).
      exists (EvClock (clock 0%nat) :: pre'), t. split; [reflexivity | exact Ht].
    + intros pre t post Heq Hpre Ht.
      destruct pre as [|x pre]; [contradiction|]. injection Heq as <- Heq.
      destruct Htail as [->|[s ->]].
      * rewrite app_nil_r in Heq.
        rewrite (checked_attempts_expired _ _ Hca _ _ _ Heq Ht). reflexivity.
      * apply split_clock_before_last in Heq.
        destruct Heq as [(-> & _) | (post' & -> & Heq)]; [reflexivity|].
        rewrite (checked_attempts_expired _ _ Hca _ _ _ Heq Ht). reflexivity.
Qed.

(** Under a clock that advances one second per reading, a limit of 1500 ms
    lets one attempt through: readings 0.0 (start), 1.0 (below the deadline
    1.5), the digest of nonce 0, 2.0 (loop ends), 3.0 (elapsed time). *)
Lemma mine_attempts_checked_witness :
  exists o w,
    mine ticking_clock 3 req_defaults init_world = (o, w) /\
    digests (trace w) = [payload_of "Hello, Bitcoin!" 0] /\
    List.length (trace w) = 5%nat /\
    attempts_checked (ticking_clock 0%nat) (time_limit_ms req_defaults) (trace w).
Proof.
  eexists. eexists.
  split; [vm_compute; reflexivity|].
  split; [reflexivity|]. split; [reflexivity|].
  eapply (mine_attempts_checked ticking_clock 3 req_defaults); vm_compute; reflexivity.
Defined.

(* ===================================================================== *)
(** ** Termination                                                       *)
(* ===================================================================== *)

(** C9: a budget of [max (max_hashes, 0)] turns always suffices.  For
    every clock and every deadline, however far, the loop started by the
    handler ends within that budget, having made [tried <= max (max_hashes, 0)]
    attempts, one digest each; and the handler itself then returns or
    raises, with at most [max (max_hashes, 0)] digests computed. *)
Theorem mine_terminates clock req extra :
  let fuel := (Z.to_nat (max_hashes req) + extra)%nat in
  (forall prefix deadline w0,
     exists l w tr,
       mine_loop clock req prefix deadline fuel
         (mkLocals 0 (start_nonce req) None None) w0 = (Ok l, w) /\
       trace w = trace w0 ++ tr /\
       Z.of_nat (List.length (digests tr)) = l_tried l /\
       0 <= l_tried l <= Z.max (max_hashes req) 0) /\
  (exists o w,
     mine clock fuel req init_world = (o, w) /\
     o <> OutOfFuel /\
     Z.of_nat (List.length (digests (trace w))) <= Z.max (max_hashes req) 0).
Proof.
  intros fuel.
  assert (Hfuel : forall w0 : world,
            (Z.to_nat (max_hashes req - l_tried (mkLocals 0 (start_nonce req) None None)) <= fuel)%nat)
    by (intros _; unfold fuel; simpl; rewrite Z.sub_0_r; lia).
  split.
  - intros prefix deadline w0.
    destruct (mine_loop_terminates clock req prefix deadline fuel _ w0 (Hfuel w0))
      as (l & w & Hloop).
    destruct (mine_loop_trace _ _ _ _ _ _ _ _ _ Hloop)
      as (tr & Htr & _ & _ & _ & _ & Hcount).
    specialize (Hcount l eq_refl). simpl in Hcount.
    destruct (mine_loop_result _ _ _ _ _ _ _ _ _ Hloop eq_refl eq_refl) as (Htried & _).
    simpl in Htried.
    exists l, w, tr. repeat split; try lia; assumption.
  - destruct (mine clock fuel req init_world) as [o w] eqn:Hrun.
    exists o, w. split; [reflexivity|]. split.
    + rewrite mine_unfold in Hrun.
      destruct (max_hashes req >? 1000000); [injection Hrun as <- _; discriminate|].
      cbv zeta in Hrun.
      destruct (Py.float_of_int (time_limit_ms req)) as [e|limit];
        [injection Hrun as <- _; discriminate|].
      match type of Hrun with
      | context [mine_loop clock req ?p ?d fuel ?l0 ?w1] =>
          destruct (mine_loop_terminates clock req p d fuel l0 w1 (Hfuel w1))
            as (l & w2 & Hloop)
      end.
      rewrite Hloop in Hrun.
      destruct (Py.int_of_float _); injection Hrun as <- _; discriminate.
    + destruct (mine_trace_shape _ _ _ _ _ Hrun)
        as [(_ & -> & _) | [(_ & e & _ & _ & ->) | (_ & limit & tr & tail & _ & -> & _ & Htail & _ & _ & Hmax & _)]].
      * simpl. lia.
      * simpl. lia.
      * cbn [digests]. rewrite digests_app.
        assert (digests tail = []) as -> by (destruct Htail as [->|[s ->]]; reflexivity).
        rewrite app_nil_r. lia.
Qed.

(* ===================================================================== *)
(** ** POST /api/hash                                                    *)
(* ===================================================================== *)

Lemma length_append (s1 s2 : string) :
  String.length (s1 ++ s2) = (String.length s1 + String.length s2)%nat.
Proof.
  induction s1 as [|c s1 IH]; simpl; [reflexivity | rewrite IH; reflexivity].
Qed.

Lemma all_hex_append (s1 s2 : string) :
  all_hex (s1 ++ s2) = all_hex s1 && all_hex s2.
Proof.
  induction s1 as [|c s1 IH]; simpl; [reflexivity|].
  rewrite IH, andb_assoc. reflexivity.
Qed.

Lemma hex_digit_is_hex (d : Z) : is_hex_char (SHA256.hex_digit d) = true.
Proof.
  destruct d as [|p|p]; try reflexivity.
  do 4 (try (destruct p as [p|p|]; try reflexivity)).
Qed.

Lemma hex_of_length (n : nat) (v : Z) : String.length (SHA256.hex_of n v) = n.
Proof.
  induction n as [|n IH]; cbn [SHA256.hex_of String.length]; [reflexivity|].
  rewrite IH. reflexivity.
Qed.

Lemma hex_of_all_hex (n : nat) (v : Z) : all_hex (SHA256.hex_of n v) = true.
Proof.
  induction n as [|n IH]; cbn [SHA256.hex_of all_hex]; [reflexivity|].
  rewrite hex_digit_is_hex, IH. reflexivity.
Qed.

(** A hex digest is 64 lowercase hexadecimal characters. *)
Lemma hexdigest_format (s : SHA256.state) :
  String.length (SHA256.hexdigest s) = 64%nat /\
  all_hex (SHA256.hexdigest s) = true.
Proof.
  unfold SHA256.hexdigest, SHA256.hex32. split.
  - rewrite !length_append, !hex_of_length. reflexivity.
  - rewrite !all_hex_append, !hex_of_all_hex. reflexivity.
Qed.

(** C8: for every string [d], the response of POST /api/hash carries [d]
    and the SHA-256 hex digest of the bytes of [d], which is 64
    hexadecimal characters; for "abc" it is the published digest
    ba7816bf 8f01cfea 414140de 5dae2223 b00361a3 96177a9c b410ff61 f20015ad. *)
Theorem simple_hash_digest :
  (forall d,
     resp_data (simple_hash d) = d /\
     resp_sha256 (simple_hash d) = SHA256.hexdigest (SHA256.sha256 (Py.encode d)) /\
     String.length (resp_sha256 (simple_hash d)) = 64%nat /\
     all_hex (resp_sha256 (simple_hash d)) = true) /\
  simple_hash "abc" =
    mkHashResponse "abc"
      "ba7816bf8f01cfea414140de5dae2223b00361a396177a9cb410ff61f20015ad".
Proof.
  split.
  - intros d. unfold simple_hash. cbn [resp_data resp_sha256].
    split; [reflexivity|]. split; [reflexivity|].
    apply hexdigest_format.
  - vm_compute. reflexivity.
Qed.

(** The computed constants are those printed in the standard (first and
    last round constant, initial chaining value). *)
Example sha256_constants :
  List.length SHA256.K = 64%nat /\
  List.nth 0 SHA256.K 0 = 0x428a2f98 /\
  List.nth 63 SHA256.K 0 = 0xc67178f2 /\
  SHA256.H_init =
    SHA256.mkState 0x6a09e667 0xbb67ae85 0x3c6ef372 0xa54ff53a
                   0x510e527f 0x9b05688c 0x1f83d9ab 0x5be0cd19.
Proof.
  repeat split.
Qed.

(** The implementation of SHA-256 agrees with the standard on the empty
    message and on the two-block message of FIPS 180-4. *)
Example sha256_test_vectors :
  sha256_hex (Py.encode "") =
    "e3b0c44298fc1c149afbf4c8996fb92427ae41e4649b934ca495991b7852b855"%string /\
  sha256_hex (Py.encode "abcdbcdecdefdefgefghfghighijhijkijkljklmklmnlmnomnopnopq") =
    "248d6a61d20638b8e5c026930c3e6039a33ce45964ff2167f6ecedd419db06c1"%string.
Proof.
  split; vm_compute; reflexivity.
Qed.

(** The empty body is accepted with the defaults of the model. *)
Example validate_defaults :
  validate body_defaults = inr req_defaults.
Proof.
  reflexivity.
Qed.

(** [str(int)] and string repetition. *)
Example py_str_examples :
  Py.str 0 = "0"%string /\ Py.str 155 = "155"%string /\
  Py.str (-15) = "-15"%string /\
  Py.str_mul "0" 3 = "000"%string /\ Py.str_mul "0" (-3) = ""%string /\
  payload_of "ab" 7 = ["a"; "b"; "|"; "7"]%byte.
Proof.
  repeat split.
Qed.

(** Conversion from [int] to [float] rounds to nearest even and overflows
    from [2^1024 - 2^970] on; [int] of a float truncates toward zero. *)
Example py_float_examples :
  Py.float_of_int (2 ^ 53 + 1) = inr (S754_finite false (2 ^ 52) 1) /\
  Py.float_of_int (2 ^ 1024 - 2 ^ 970 - 1) = inr (S754_finite false (2 ^ 53 - 1) 971) /\
  Py.float_of_int (2 ^ 1024 - 2 ^ 970) =
    inl (Py.OverflowError "int too large to convert to float") /\
  Py.float_of_int (- 10 ^ 400) =
    inl (Py.OverflowError "int too large to convert to float") /\
  Py.int_of_float (Py.fdiv (S754_finite true 5 0) (S754_finite false 2 0)) = inr (-2) /\
  Py.int_of_float (Py.fmul (Py.fsub (ticking_clock 2) (ticking_clock 0)) Py.f1000) = inr 2000.
Proof.
  repeat split; vm_compute; reflexivity.
Qed.

(* ===================================================================== *)
(** ** Scenarios                                                         *)
(* ===================================================================== *)

(** The default data at difficulty 1 from nonce 0: the first digest that
    starts with "0" is that of nonce 20, after 21 attempts. *)
Example scenario_default_data_difficulty_1 :
  exists w,
    mine frozen_clock 21 (mkMineRequest "Hello, Bitcoin!" 1 0 200000 1500) init_world =
      (Ok (mkMineResult true (Some 20)
             (Some "08af6db2ae2c7f49ae18492856457e93fd06f0edbe7fb584705711a182bdb2f1"%string)
             21 0 "0"), w).
Proof.
  eexists. vm_compute. reflexivity.
Qed.

(** Difficulty 7 under a cap of 10 attempts: no match, 10 attempts. *)
Example scenario_difficulty_7_cap_10 :
  exists w,
    mine frozen_clock 10 (mkMineRequest "Hello, Bitcoin!" 7 0 10 1) init_world =
      (Ok (mkMineResult false None None 10 0 "0000000"), w).
Proof.
  eexists. vm_compute. reflexivity.
Qed.

(** A time limit of zero: the first check of the loop fails under a clock
    that does not go back, and no attempt is made. *)
Example scenario_time_limit_0 :
  mine ticking_clock 10 (mkMineRequest "Hello, Bitcoin!" 1 0 10 0) init_world =
    (Ok (mkMineResult false None None 0 2000 "0"),
     mkWorld 3 [EvClock (ticking_clock 0%nat); EvClock (ticking_clock 1%nat);
                EvClock (ticking_clock 2%nat)]).
Proof.
  vm_compute. reflexivity.
Qed.

(* ===================================================================== *)
(** ** How the loop ends                                                 *)
(* ===================================================================== *)

Section LoopExit.

Variable clock : nat -> Py.float.
Variable req : MineRequest.
Variable prefix : string.
Variable deadline : Py.float.

Local Notation "'loop'" := (mine_loop clock req prefix deadline).

(** The loop ends on a match, on the attempt cap, or on a clock reading
    that is not below the deadline; it reads the clock once per attempt,
    and once more in the last case. *)
Lemma mine_loop_exit fuel : forall l w l' w',
  loop fuel l w = (Ok l', w') ->
  l_found_nonce l = None ->
  (exists n, l_found_nonce l' = Some n /\
     Z.of_nat (reads w') = Z.of_nat (reads w) + (l_tried l' - l_tried l)) \/
  (l_found_nonce l' = None /\ max_hashes req <= l_tried l' /\
     Z.of_nat (reads w') = Z.of_nat (reads w) + (l_tried l' - l_tried l)) \/
  (l_found_nonce l' = None /\ l_tried l' < max_hashes req /\
     Z.of_nat (reads w') = Z.of_nat (reads w) + (l_tried l' - l_tried l) + 1 /\
     exists tr0 t,
       trace w' = tr0 ++ [EvClock t] /\
       t = clock (Nat.pred (reads w')) /\
       Py.flt t deadline = false).
Proof.
  induction fuel as [|fuel IH]; intros l w l' w' Hrun Hn;
    rewrite mine_loop_unfold in Hrun;
    destruct (l_tried l <? max_hashes req) eqn:Hguard;
    cbv zeta in Hrun.
  - destruct (Py.flt (clock (reads w)) deadline) eqn:Ht; [discriminate|].
    injection Hrun as <- <-. right. right. cbn [reads trace Nat.pred].
    repeat split; try lia; try assumption.
    exists (trace w), (clock (reads w)). repeat split. exact Ht.
  - injection Hrun as <- <-. right. left. repeat split; try lia; assumption.
  - destruct (Py.flt (clock (reads w)) deadline) eqn:Ht.
    + destruct (Py.startswith _ prefix) eqn:Hm.
      * injection Hrun as <- <-. left. eexists. cbn [reads l_tried l_found_nonce].
        split; [reflexivity | lia].
      * apply IH in Hrun; [|exact Hn]. cbn [reads l_tried] in Hrun.
        destruct Hrun as [(n & Hf & Hr) | [(Hf & Hc & Hr) | (Hf & Hc & Hr & Hlast)]].
        -- left. exists n. split; [exact Hf | lia].
        -- right. left. repeat split; try assumption; lia.
        -- right. right. repeat split; try assumption; lia.
    + injection Hrun as <- <-. right. right. cbn [reads trace Nat.pred].
      repeat split; try lia; try assumption.
      exists (trace w), (clock (reads w)). repeat split. exact Ht.
  - injection Hrun as <- <-. right. left. repeat split; try lia; assumption.
Qed.

End LoopExit.

(** A returned result with the final world and the loop run behind it. *)
Lemma mine_Ok_world clock fuel req w r w' :
  mine clock fuel req w = (Ok r, w') ->
  max_hashes req <= 1000000 /\
  exists limit l w2 elapsed,
    Py.float_of_int (time_limit_ms req) = inr limit /\
    mine_loop clock req (Py.str_mul "0" (difficulty req))
      (Py.fadd (clock (reads w)) (Py.fdiv limit Py.f1000)) fuel
      (mkLocals 0 (start_nonce req) None None)
      (mkWorld (S (reads w)) (trace w ++ [EvClock (clock (reads w))])) = (Ok l, w2) /\
    w' = mkWorld (S (reads w2)) (trace w2 ++ [EvClock (clock (reads w2))]) /\
    r = mkMineResult (is_some (l_found_nonce l)) (l_found_nonce l)
          (l_found_hash l) (l_tried l) elapsed (Py.str_mul "0" (difficulty req)).
Proof.
  rewrite mine_unfold. intros Hrun.
  destruct (max_hashes req >? 1000000) eqn:Hcap; [discriminate|].
  split; [lia|]. cbv zeta in Hrun.
  destruct (Py.float_of_int (time_limit_ms req)) as [e|limit]; [discriminate|].
  destruct (mine_loop clock req _ _ fuel _ _) as [[l|e|] w2] eqn:Hloop; try discriminate.
  destruct (Py.int_of_float _) as [e|elapsed]; [discriminate|].
  injection Hrun as <- <-.
  exists limit, l, w2, elapsed. repeat split. exact Hloop.
Qed.

(** The definition of the digest wrapper, for use under opacity. *)
Lemma sha256_hex_unfold (payload : list byte) :
  sha256_hex payload = SHA256.hexdigest (SHA256.sha256 payload).
Proof.
  with_strategy transparent [sha256_hex] reflexivity.
Qed.

(* ===================================================================== *)
(** ** More on the search result                                         *)
(* ===================================================================== *)

(** When [found] is false, no integer of the attempted window satisfies
    the prefix condition. *)
Lemma mine_unmatched_window clock fuel req w0 r w :
  mine clock fuel req w0 = (Ok r, w) ->
  found r = false ->
  forall m, start_nonce req <= m < start_nonce req + tried_hashes r ->
    prefix_condition (data req) (difficulty req) m = false.
Proof.
  intros Hrun Hfound.
  destruct (mine_Ok_world _ _ _ _ _ _ Hrun)
    as (_ & limit & l & w2 & elapsed & _ & Hloop & _ & ->).
  cbn [found tried_hashes] in *.
  destruct (mine_loop_result _ _ _ _ _ _ _ _ _ Hloop eq_refl eq_refl)
    as (_ & Hbefore & Hres).
  cbn [l_nonce l_tried] in *.
  destruct (l_found_nonce l); [discriminate|]. destruct Hres as (_ & Hnonce).
  intros m Hm. unfold prefix_condition. apply Hbefore. lia.
Qed.

(** X1: in a returned result, [nonce] and [hash_hex] are both present when
    [found] is true and both absent when it is false. *)
Theorem mine_result_presence clock fuel req r w :
  mine clock fuel req init_world = (Ok r, w) ->
  (found r = true /\ (exists n, nonce r = Some n) /\ (exists h, hash_hex r = Some h)) \/
  (found r = false /\ nonce r = None /\ hash_hex r = None).
Proof.
  intros Hrun.
  destruct (mine_result_facts _ _ _ _ _ _ Hrun) as (_ & _ & Hres).
  destruct (nonce r) as [n|].
  - left. destruct Hres as (Hf & _ & _ & Hh & _).
    split; [exact Hf|]. split; eexists; [reflexivity | exact Hh].
  - right. destruct Hres as (Hf & Hh). repeat split; assumption.
Qed.

(** The capped search from nonce 154 ends without a match. *)
Lemma mine_result_presence_witness :
  exists r w,
    mine frozen_clock 1 req_154_cap_1 init_world = (Ok r, w) /\
    found r = false /\
    ((found r = true /\ (exists n, nonce r = Some n) /\ (exists h, hash_hex r = Some h)) \/
     (found r = false /\ nonce r = None /\ hash_hex r = None)).
Proof.
  eexists. eexists.
  split; [vm_compute; reflexivity|].
  split; [reflexivity|].
  eapply (mine_result_presence frozen_clock 1 req_154_cap_1); vm_compute; reflexivity.
Defined.

(** X2: when [found] is false, every integer of
    [start_nonce, start_nonce + tried_hashes) was hashed, in increasing
    order, and none satisfies the prefix condition. *)
Theorem mine_not_found_exhausted clock fuel req r w :
  mine clock fuel req init_world = (Ok r, w) ->
  found r = false ->
  (forall m, start_nonce req <= m < start_nonce req + tried_hashes r ->
     prefix_condition (data req) (difficulty req) m = false) /\
  digests (trace w) =
    List.map (payload_of (data req))
      (nonces_from (start_nonce req) (Z.to_nat (tried_hashes r))).
Proof.
  intros Hrun Hfound.
  split; [exact (mine_unmatched_window _ _ _ _ _ _ Hrun Hfound)|].
  destruct (mine_trace_shape _ _ _ _ _ Hrun)
    as [(_ & _ & Ho) | [(_ & e & _ & Ho & _) | (_ & limit' & tr & tail & _ & Htr & _ & Htail & Hd & _ & _ & Hcount)]];
    try discriminate.
  specialize (Hcount _ eq_refl).
  rewrite Htr. cbn [digests]. rewrite digests_app.
  assert (digests tail = []) as -> by (destruct Htail as [->|[t ->]]; reflexivity).
  rewrite app_nil_r, Hcount, Nat2Z.id. exact Hd.
Qed.

(** The capped search from nonce 154 hashes nonce 154 only. *)
Lemma mine_not_found_exhausted_witness :
  exists r w,
    mine frozen_clock 1 req_154_cap_1 init_world = (Ok r, w) /\
    found r = false /\ tried_hashes r = 1 /\
    (forall m, start_nonce req_154_cap_1 <= m < start_nonce req_154_cap_1 + tried_hashes r ->
       prefix_condition (data req_154_cap_1) (difficulty req_154_cap_1) m = false) /\
    digests (trace w) =
      List.map (payload_of (data req_154_cap_1))
        (nonces_from (start_nonce req_154_cap_1) (Z.to_nat (tried_hashes r))).
Proof.
  eexists. eexists.
  split; [vm_compute; reflexivity|].
  split; [reflexivity|]. split; [reflexivity|].
  eapply (mine_not_found_exhausted frozen_clock 1 req_154_cap_1); vm_compute; reflexivity.
Defined.

(** X3: a search that returns without a match was stopped by one of the
    two caps: either [tried_hashes] reached [max_hashes], or the last clock
    reading of the loop (the one before the final reading that measures the
    elapsed time) was not below the deadline. *)
Theorem mine_stop_reason clock fuel req r w :
  mine clock fuel req init_world = (Ok r, w) ->
  found r = false ->
  max_hashes req <= tried_hashes r \/
  (tried_hashes r < max_hashes req /\
   exists limit tr0 t stop,
     Py.float_of_int (time_limit_ms req) = inr limit /\
     trace w = tr0 ++ [EvClock t; EvClock stop] /\
     Py.flt t (Py.fadd (clock 0%nat) (Py.fdiv limit Py.f1000)) = false).
Proof.
  intros Hrun Hfound.
  destruct (mine_Ok_world _ _ _ _ _ _ Hrun)
    as (_ & limit & l & w2 & elapsed & Hlimit & Hloop & -> & ->).
  cbn [found tried_hashes reads trace init_world] in *.
  destruct (mine_loop_exit _ _ _ _ _ _ _ _ _ Hloop eq_refl)
    as [(n & Hf & _) | [(Hf & Hc & _) | (Hf & Hc & _ & tr0 & t & Htr & _ & Ht)]].
  - rewrite Hf in Hfound. discriminate.
  - left. exact Hc.
  - right. split; [exact Hc|].
    exists limit, tr0, t, (clock (reads w2)).
    split; [exact Hlimit|]. split; [|exact Ht].
    rewrite Htr, <- app_assoc. reflexivity.
Qed.

(** Under the ticking clock, the default request is stopped by the time
    cap after one attempt. *)
Lemma mine_stop_reason_witness :
  exists r w,
    mine ticking_clock 3 req_defaults init_world = (Ok r, w) /\
    found r = false /\ tried_hashes r = 1 /\
    (max_hashes req_defaults <= tried_hashes r \/
     (tried_hashes r < max_hashes req_defaults /\
      exists limit tr0 t stop,
        Py.float_of_int (time_limit_ms req_defaults) = inr limit /\
        trace w = tr0 ++ [EvClock t; EvClock stop] /\
        Py.flt t (Py.fadd (ticking_clock 0%nat) (Py.fdiv limit Py.f1000)) = false)).
Proof.
  eexists. eexists.
  split; [vm_compute; reflexivity|].
  split; [reflexivity|]. split; [reflexivity|].
  eapply (mine_stop_reason ticking_clock 3 req_defaults); vm_compute; reflexivity.
Defined.

(** X4: a returned search has read the clock once at the start, once per
    attempt and once at the end, plus once more when the time cap ended
    the loop: [tried_hashes + 2] readings on a match or on the attempt
    cap, [tried_hashes + 3] otherwise. *)
Theorem mine_clock_readings clock fuel req r w :
  mine clock fuel req init_world = (Ok r, w) ->
  (Z.of_nat (reads w) = tried_hashes r + 2 /\
   (found r = true \/ max_hashes req <= tried_hashes r)) \/
  (Z.of_nat (reads w) = tried_hashes r + 3 /\
   found r = false /\ tried_hashes r < max_hashes req).
Proof.
  intros Hrun.
  destruct (mine_Ok_world _ _ _ _ _ _ Hrun)
    as (_ & limit & l & w2 & elapsed & _ & Hloop & -> & ->).
  cbn [found tried_hashes reads trace init_world] in *.
  destruct (mine_loop_exit _ _ _ _ _ _ _ _ _ Hloop eq_refl)
    as [(n & Hf & Hr) | [(Hf & Hc & Hr) | (Hf & Hc & Hr & _)]];
    cbn [reads l_tried] in Hr; rewrite Hf; cbn [is_some].
  - left. split; [lia | left; reflexivity].
  - left. split; [lia | right; exact Hc].
  - right. repeat split; [lia | exact Hc].
Qed.

(** The search from nonce 154 makes 2 attempts and 4 clock readings. *)
Lemma mine_clock_readings_witness :
  exists r w,
    mine frozen_clock 2 req_from_154 init_world = (Ok r, w) /\
    tried_hashes r = 2 /\ reads w = 4%nat /\
    ((Z.of_nat (reads w) = tried_hashes r + 2 /\
      (found r = true \/ max_hashes req_from_154 <= tried_hashes r)) \/
     (Z.of_nat (reads w) = tried_hashes r + 3 /\
      found r = false /\ tried_hashes r < max_hashes req_from_154)).
Proof.
  eexists. eexists.
  split; [vm_compute; reflexivity|].
  split; [reflexivity|]. split; [reflexivity|].
  eapply (mine_clock_readings frozen_clock 2 req_from_154); vm_compute; reflexivity.
Defined.

(** X5: a search can be resumed.  When a request returns without a match
    and the next request, for the same data and difficulty, starts at
    [start_nonce + tried_hashes] and finds a nonce, that nonce is the least
    integer from the first [start_nonce] on that satisfies the prefix
    condition: no candidate is skipped between the two requests. *)
Theorem mine_resume clock1 clock2 fuel1 fuel2 req1 req2 r1 r2 w1 w2 :
  data req1 = data req2 ->
  difficulty req1 = difficulty req2 ->
  mine clock1 fuel1 req1 init_world = (Ok r1, w1) ->
  found r1 = false ->
  start_nonce req2 = start_nonce req1 + tried_hashes r1 ->
  mine clock2 fuel2 req2 init_world = (Ok r2, w2) ->
  found r2 = true ->
  exists n,
    nonce r2 = Some n /\ start_nonce req1 <= n /\
    prefix_condition (data req1) (difficulty req1) n = true /\
    (forall m, start_nonce req1 <= m < n ->
       prefix_condition (data req1) (difficulty req1) m = false).
Proof.
  intros Hd Hk Hrun1 Hf1 Hs Hrun2 Hf2.
  pose proof (mine_unmatched_window _ _ _ _ _ _ Hrun1 Hf1) as Hwin.
  destruct (mine_result_facts _ _ _ _ _ _ Hrun1) as (Ht1 & _).
  destruct (mine_result_facts _ _ _ _ _ _ Hrun2) as (_ & _ & Hres).
  destruct (nonce r2) as [n|]; [|destruct Hres; congruence].
  destruct Hres as (_ & Hge & _ & _ & Hm & Hbefore).
  rewrite <- Hd, <- Hk in *.
  exists n. split; [reflexivity|]. split; [lia|]. split; [exact Hm|].
  intros m Hrange.
  destruct (Z_lt_le_dec m (start_nonce req2)).
  - apply Hwin. lia.
  - apply Hbefore. lia.
Qed.

(** One attempt from nonce 154 fails; the search resumed at 155 finds 155. *)
Lemma mine_resume_witness :
  exists r1 r2 w1 w2,
    mine frozen_clock 1 req_154_cap_1 init_world = (Ok r1, w1) /\
    found r1 = false /\ tried_hashes r1 = 1 /\
    mine ticking_clock 1 req_from_155 init_world = (Ok r2, w2) /\
    found r2 = true /\
    exists n,
      nonce r2 = Some n /\ start_nonce req_154_cap_1 <= n /\
      prefix_condition (data req_154_cap_1) (difficulty req_154_cap_1) n = true /\
      (forall m, start_nonce req_154_cap_1 <= m < n ->
         prefix_condition (data req_154_cap_1) (difficulty req_154_cap_1) m = false).
Proof.
  eexists. eexists. eexists. eexists.
  split; [vm_compute; reflexivity|].
  split; [reflexivity|]. split; [reflexivity|].
  split; [vm_compute; reflexivity|].
  split; [reflexivity|].
  eapply (mine_resume frozen_clock ticking_clock 1 1 req_154_cap_1 req_from_155);
    vm_compute; reflexivity.
Defined.

(** X6: a found nonce lies in the window of the request:
    [start_nonce <= nonce < start_nonce + max_hashes], so less than
    1,000,000 above [start_nonce]. *)
Theorem mine_nonce_window clock fuel req r w n :
  mine clock fuel req init_world = (Ok r, w) ->
  nonce r = Some n ->
  start_nonce req <= n < start_nonce req + max_hashes req /\
  n - start_nonce req < 1000000.
Proof.
  intros Hrun Hn.
  destruct (mine_Ok_inv _ _ _ _ _ _ Hrun) as (Hcap & _).
  destruct (mine_result_facts _ _ _ _ _ _ Hrun) as (Htried & _ & Hres).
  rewrite Hn in Hres. destruct Hres as (_ & Hge & Hoff & _).
  lia.
Qed.

(** Nonce 155 lies in the window that starts at 154. *)
Lemma mine_nonce_window_witness :
  exists r w,
    mine frozen_clock 2 req_from_154_small_caps init_world = (Ok r, w) /\
    nonce r = Some 155 /\
    start_nonce req_from_154_small_caps <= 155
      < start_nonce req_from_154_small_caps + max_hashes req_from_154_small_caps /\
    155 - start_nonce req_from_154_small_caps < 1000000.
Proof.
  eexists. eexists.
  split; [vm_compute; reflexivity|].
  split; [reflexivity|].
  eapply (mine_nonce_window frozen_clock 2 req_from_154_small_caps); vm_compute; reflexivity.
Defined.

(** X7: a returned [hash_hex] is 64 lowercase hexadecimal characters. *)
Theorem mine_hash_hex_format clock fuel req r w h :
  mine clock fuel req init_world = (Ok r, w) ->
  hash_hex r = Some h ->
  String.length h = 64%nat /\ all_hex h = true.
Proof.
  intros Hrun Hh.
  destruct (mine_result_facts _ _ _ _ _ _ Hrun) as (_ & _ & Hres).
  destruct (nonce r) as [n|]; [|destruct Hres; congruence].
  destruct Hres as (_ & _ & _ & Hhash & _).
  rewrite Hhash in Hh. injection Hh as <-.
  unfold digest_at. rewrite sha256_hex_unfold. apply hexdigest_format.
Qed.

(** The digest returned for nonce 155. *)
Lemma mine_hash_hex_format_witness :
  exists r w h,
    mine frozen_clock 2 req_from_154 init_world = (Ok r, w) /\
    hash_hex r = Some h /\
    String.length h = 64%nat /\ all_hex h = true.
Proof.
  eexists. eexists. eexists.
  split; [vm_compute; reflexivity|].
  split; [reflexivity|].
  eapply (mine_hash_hex_format frozen_clock 2 req_from_154); vm_compute; reflexivity.
Defined.

Lemma str_repeat_zero_shape (n : nat) :
  String.length (Py.str_repeat "0" n) = n /\
  leading_zeros (Py.str_repeat "0" n) = n.
Proof.
  induction n as [|n [IHlen IHzeros]]; [split; reflexivity|].
  cbn [Py.str_repeat append String.length leading_zeros].
  rewrite IHlen, IHzeros. split; reflexivity.
Qed.

(** X8: in every result returned by the route, [target_prefix] consists of
    exactly [difficulty] characters '0', where [difficulty] is the one of
    the body (4 when omitted) and lies in [1, 7]; this holds whether or
    not a match was found. *)
Theorem post_api_mine_target_prefix clock fuel b r w :
  post_api_mine clock fuel b init_world = (Ok r, w) ->
  1 <= default 4 (body_difficulty b) <= 7 /\
  String.length (target_prefix r) = Z.to_nat (default 4 (body_difficulty b)) /\
  leading_zeros (target_prefix r) = Z.to_nat (default 4 (body_difficulty b)).
Proof.
  unfold post_api_mine, validate.
  destruct ((1 <=? default 4 (body_difficulty b)) && (default 4 (body_difficulty b) <=? 7)) eqn:E;
    [|discriminate].
  intros Hrun. split; [lia|].
  destruct (mine_result_facts _ _ _ _ _ _ Hrun) as (_ & Hp & _).
  rewrite Hp. cbn [difficulty]. unfold Py.str_mul.
  apply str_repeat_zero_shape.
Qed.

(** The body with a cap of -1 and the default difficulty 4. *)
Lemma post_api_mine_target_prefix_witness :
  exists r w,
    post_api_mine frozen_clock 0 body_negative_cap init_world = (Ok r, w) /\
    target_prefix r = "0000"%string /\
    1 <= default 4 (body_difficulty body_negative_cap) <= 7 /\
    String.length (target_prefix r) = Z.to_nat (default 4 (body_difficulty body_negative_cap)) /\
    leading_zeros (target_prefix r) = Z.to_nat (default 4 (body_difficulty body_negative_cap)).
Proof.
  eexists. eexists.
  split; [vm_compute; reflexivity|].
  split; [reflexivity|].
  eapply (post_api_mine_target_prefix frozen_clock 0 body_negative_cap); vm_compute; reflexivity.
Defined.

(** X9: a found result can be checked with POST /api/hash: hashing the
    string [data + "|" + str(nonce)] there gives the returned [hash_hex]. *)
Theorem mine_result_verifiable clock fuel req r w n h :
  mine clock fuel req init_world = (Ok r, w) ->
  nonce r = Some n ->
  hash_hex r = Some h ->
  resp_sha256 (simple_hash (data req ++ "|" ++ Py.str n)) = h.
Proof.
  intros Hrun Hn Hh.
  destruct (mine_result_facts _ _ _ _ _ _ Hrun) as (_ & _ & Hres).
  rewrite Hn in Hres. destruct Hres as (_ & _ & _ & Hhash & _).
  rewrite Hhash in Hh. injection Hh as <-.
  unfold simple_hash, digest_at, payload_of. cbn [resp_sha256].
  rewrite sha256_hex_unfold. reflexivity.
Qed.

(** The result for nonce 155 checked through the hash endpoint. *)
Lemma mine_result_verifiable_witness :
  exists r w n h,
    mine frozen_clock 2 req_from_154 init_world = (Ok r, w) /\
    nonce r = Some n /\ hash_hex r = Some h /\
    resp_sha256 (simple_hash (data req_from_154 ++ "|" ++ Py.str n)) = h.
Proof.
  eexists. eexists. eexists. eexists.
  split; [vm_compute; reflexivity|].
  split; [reflexivity|]. split; [reflexivity|].
  eapply (mine_result_verifiable frozen_clock 2 req_from_154); vm_compute; reflexivity.
Defined.

(** A difficulty of 8 is refused before the handler runs. *)
Lemma post_api_mine_rejects_difficulty_witness :
  ~ 1 <= default 4 (body_difficulty body_difficulty_8) <= 7 /\
  post_api_mine frozen_clock 0 body_difficulty_8 init_world =
    (Raise (Py.RequestValidationError "difficulty"), init_world).
Proof.
  split; [simpl; lia|].
  apply (post_api_mine_rejects_difficulty frozen_clock 0 body_difficulty_8).
  simpl. lia.
Defined.


(* ===================================================================== *)
(** ** Candidates                                                        *)
(* ===================================================================== *)

(** [str] on integers is injective. *)
Lemma str_injective (n1 n2 : Z) : Py.str n1 = Py.str n2 -> n1 = n2.
Proof.
  unfold Py.str. intros H.
  assert (Hnonnil : forall n, Z.to_int n <> Decimal.Pos Decimal.Nil /\
                              Z.to_int n <> Decimal.Neg Decimal.Nil).
  { intros [|p|p]; cbn [Z.to_int]; split; try discriminate;
      intros E; injection E as E; exact (DecimalPos.Unsigned.to_uint_nonnil p E). }
  apply (f_equal NilZero.int_of_string) in H.
  rewrite !NilZero.isi in H by apply Hnonnil.
  injection H as H.
  apply (f_equal Z.of_int) in H. rewrite !DecimalZ.of_to in H. exact H.
Qed.

Lemma append_cancel_l (s t1 t2 : string) :
  (s ++ t1 = s ++ t2)%string -> t1 = t2.
Proof.
  induction s as [|c s IH]; cbn [append]; intros H; [exact H|].
  injection H as H. exact (IH H).
Qed.

(** For one data string, distinct nonces give distinct payloads. *)
Lemma payload_of_injective (d : string) (n1 n2 : Z) :
  payload_of d n1 = payload_of d n2 -> n1 = n2.
Proof.
  unfold payload_of, Py.encode. intros H.
  apply (f_equal string_of_list_byte) in H.
  rewrite !string_of_list_byte_of_string in H.
  apply append_cancel_l in H. cbn [append] in H. injection H as H.
  exact (str_injective _ _ H).
Qed.

Lemma nonces_from_lower (k : nat) : forall s m,
  In m (nonces_from s k) -> s <= m.
Proof.
  induction k as [|k IH]; intros s m Hin; [destruct Hin|].
  destruct Hin as [<-|Hin]; [lia|]. apply IH in Hin. lia.
Qed.

Lemma payloads_NoDup (d : string) (k : nat) : forall s,
  NoDup (List.map (payload_of d) (nonces_from s k)).
Proof.
  induction k as [|k IH]; intros s; cbn [nonces_from List.map]; constructor.
  - intros Hin. apply in_map_iff in Hin. destruct Hin as (m & Heq & Hin).
    apply payload_of_injective in Heq. apply nonces_from_lower in Hin. lia.
  - apply IH.
Qed.

(** X12: no payload is hashed twice in a request: the payloads of the
    digests computed during a run of the handler are pairwise distinct,
    whatever the outcome of the run. *)
Theorem mine_payloads_distinct clock fuel req o w :
  mine clock fuel req init_world = (o, w) ->
  NoDup (digests (trace w)).
Proof.
  intros Hrun.
  destruct (mine_trace_shape _ _ _ _ _ Hrun)
    as [(_ & -> & _) | [(_ & e & _ & _ & ->) | (_ & limit & tr & tail & _ & -> & _ & Htail & Hd & _)]].
  - constructor.
  - constructor.
  - cbn [digests]. rewrite digests_app.
    assert (digests tail = []) as -> by (destruct Htail as [->|[t ->]]; reflexivity).
    rewrite app_nil_r, Hd. apply payloads_NoDup.
Qed.

(** The two payloads hashed from nonce 154. *)
Lemma mine_payloads_distinct_witness :
  exists o w,
    mine frozen_clock 2 req_from_154 init_world = (o, w) /\
    List.length (digests (trace w)) = 2%nat /\
    NoDup (digests (trace w)).
Proof.
  eexists. eexists.
  split; [vm_compute; reflexivity|].
  split; [reflexivity|].
  eapply (mine_payloads_distinct frozen_clock 2 req_from_154); vm_compute; reflexivity.
Defined.

(* ===================================================================== *)
(** ** Edge cases of the caps                                            *)
(* ===================================================================== *)

(** X13: with [max_hashes <= 0] a returned search has made no attempt:
    [found] is false, [tried_hashes] is 0, and the clock was read twice
    only, for the start and for the elapsed time. *)
Theorem mine_nonpositive_cap clock fuel req r w :
  max_hashes req <= 0 ->
  mine clock fuel req init_world = (Ok r, w) ->
  found r = false /\ nonce r = None /\ hash_hex r = None /\
  tried_hashes r = 0 /\
  trace w = [EvClock (clock 0%nat); EvClock (clock 1%nat)].
Proof.
  intros Hcap Hrun.
  destruct (mine_Ok_world _ _ _ _ _ _ Hrun)
    as (_ & limit & l & w2 & elapsed & _ & Hloop & -> & ->).
  rewrite mine_loop_unfold in Hloop. cbn [l_tried] in Hloop.
  destruct (0 <? max_hashes req) eqn:E; [lia|].
  injection Hloop as <- <-. repeat split.
Qed.

(** A cap of zero attempts. *)
Lemma mine_nonpositive_cap_witness :
  exists r w,
    max_hashes req_zero_cap <= 0 /\
    mine ticking_clock 0 req_zero_cap init_world = (Ok r, w) /\
    found r = false /\ nonce r = None /\ hash_hex r = None /\
    tried_hashes r = 0 /\
    trace w = [EvClock (ticking_clock 0%nat); EvClock (ticking_clock 1%nat)].
Proof.
  eexists. eexists.
  split; [simpl; lia|].
  split; [vm_compute; reflexivity|].
  eapply (mine_nonpositive_cap ticking_clock 0 req_zero_cap);
    [simpl; lia | vm_compute; reflexivity].
Defined.

(** X14: the search does not miss a match that the caps allow.  When some
    [n] in [start_nonce, start_nonce + max_hashes) satisfies the prefix
    condition and every clock reading after the first is below the
    deadline, a returned result has [found] true, with a nonce at most
    [n]. *)
Theorem mine_finds_existing_match clock fuel req r w limit n :
  mine clock fuel req init_world = (Ok r, w) ->
  Py.float_of_int (time_limit_ms req) = inr limit ->
  (forall k, (1 <= k)%nat ->
     Py.flt (clock k) (Py.fadd (clock 0%nat) (Py.fdiv limit Py.f1000)) = true) ->
  start_nonce req <= n < start_nonce req + max_hashes req ->
  prefix_condition (data req) (difficulty req) n = true ->
  found r = true /\ exists n', nonce r = Some n' /\ n' <= n.
Proof.
  intros Hrun Hlimit Hclock Hn Hsat.
  destruct (found r) eqn:Hfound.
  - split; [reflexivity|].
    destruct (mine_result_facts _ _ _ _ _ _ Hrun) as (_ & _ & Hres).
    destruct (nonce r) as [n'|]; [|destruct Hres; congruence].
    destruct Hres as (_ & _ & _ & _ & _ & Hbefore).
    exists n'. split; [reflexivity|].
    destruct (Z_lt_le_dec n n') as [Hlt|]; [|assumption].
    rewrite (Hbefore n) in Hsat by lia. discriminate.
  - exfalso.
    pose proof (mine_unmatched_window _ _ _ _ _ _ Hrun Hfound) as Hwin.
    destruct (mine_Ok_world _ _ _ _ _ _ Hrun)
      as (_ & limit' & l & w2 & elapsed & Hlimit' & Hloop & -> & ->).
    rewrite Hlimit in Hlimit'. injection Hlimit' as <-.
    cbn [found tried_hashes reads trace init_world] in *.
    destruct (mine_loop_exit _ _ _ _ _ _ _ _ _ Hloop eq_refl)
      as [(m & Hf & _) | [(Hf & Hc & _) | (Hf & Hc & Hr & tr0 & t & _ & -> & Ht)]].
    + rewrite Hf in Hfound. discriminate.
    + rewrite (Hwin n) in Hsat by lia. discriminate.
    + cbn [reads l_tried] in Hr.
      destruct (mine_loop_result _ _ _ _ _ _ _ _ _ Hloop eq_refl eq_refl) as (Htried & _).
      cbn [l_tried] in Htried.
      rewrite Hclock in Ht by lia. discriminate.
Qed.

(** Nonce 155 matches and is within the window from 154; under the frozen
    clock the deadline of 1.5 s is never reached. *)
Lemma mine_finds_existing_match_witness :
  exists r w limit,
    mine frozen_clock 2 req_from_154 init_world = (Ok r, w) /\
    Py.float_of_int (time_limit_ms req_from_154) = inr limit /\
    (forall k, (1 <= k)%nat ->
       Py.flt (frozen_clock k) (Py.fadd (frozen_clock 0%nat) (Py.fdiv limit Py.f1000)) = true) /\
    start_nonce req_from_154 <= 155 < start_nonce req_from_154 + max_hashes req_from_154 /\
    prefix_condition (data req_from_154) (difficulty req_from_154) 155 = true /\
    found r = true /\ exists n', nonce r = Some n' /\ n' <= 155.
Proof.
  eexists. eexists. eexists.
  split; [vm_compute; reflexivity|].
  split; [vm_compute; reflexivity|].
  split; [intros k _; vm_compute; reflexivity|].
  split; [simpl; lia|].
  split; [vm_compute; reflexivity|].
  eapply (mine_finds_existing_match frozen_clock 2 req_from_154).
  - vm_compute; reflexivity.
  - vm_compute; reflexivity.
  - intros k _; vm_compute; reflexivity.
  - simpl; lia.
  - vm_compute; reflexivity.
Defined.

(* ===================================================================== *)
(** ** GET /test                                                         *)
(* ===================================================================== *)

Module DiagnosticFacts.
Import Diagnostic.

Lemma char_count_append (s1 s2 : string) :
  char_count (s1 ++ s2) = (char_count s1 + char_count s2)%nat.
Proof.
  induction s1 as [|c s1 IH]; cbn [append char_count]; [reflexivity|].
  destruct (is_continuation c); rewrite IH; reflexivity.
Qed.

(** [s[:n]] is a prefix of [s] with at most [n] characters, and is [s]
    itself when [s] has at most [n] characters. *)
Lemma str_take_spec (s : string) : forall n,
  String.prefix (str_take n s) s = true /\
  (char_count (str_take n s) <= n)%nat /\
  ((char_count s <= n)%nat -> str_take n s = s).
Proof.
  induction s as [|c s IH]; intros n; cbn [str_take char_count String.prefix].
  - split; [reflexivity|]. split; [lia | reflexivity].
  - destruct (is_continuation c) eqn:Hc.
    + destruct (IH n) as (Hp & Hlen & Hid).
      cbn [String.prefix char_count]. rewrite Hc.
      destruct (ascii_dec c c) as [_|Hne]; [|contradiction].
      split; [exact Hp|]. split; [exact Hlen|].
      intros H. rewrite (Hid H). reflexivity.
    + destruct n as [|n].
      * split; [reflexivity|]. split; [cbn; lia | intros H; lia].
      * destruct (IH n) as (Hp & Hlen & Hid).
        cbn [String.prefix char_count]. rewrite Hc.
        destruct (ascii_dec c c) as [_|Hne]; [|contradiction].
        split; [exact Hp|]. split; [lia|].
        intros H. rewrite Hid by lia. reflexivity.
Qed.

(** X15: the fields [database_url] and [database_name] of the response
    depend on the environment only: each is "Set" when its variable is set
    and not empty, "Not Set" otherwise, whatever the database collaborator
    does; the values written in the [try] block (the "Configured" marker
    and the name of the handle) never reach the response. *)
Theorem test_database_env_fields imp getenv :
  database_url (test_database imp getenv) =
    Some (if truthy (getenv "DATABASE_URL") then "✅ Set" else "❌ Not Set")%string /\
  database_name (test_database imp getenv) =
    Some (if truthy (getenv "DATABASE_NAME") then "✅ Set" else "❌ Not Set")%string /\
  database_url (test_database imp (fun _ => Some ""%string)) = Some "❌ Not Set"%string /\
  database_name (test_database imp (fun _ => None)) = Some "❌ Not Set"%string.
Proof.
  unfold test_database.
  destruct (try_block imp initial_response) as [[e|] r];
    [destruct (import_error e)|]; repeat split.
Qed.

(** X16: [collections] holds at most 10 names: the first 10 that the
    handle lists when the handle is there, its [name] can be looked up and
    the listing succeeds, and none in every other case. *)
Theorem test_database_collections imp getenv :
  (List.length (collections (test_database imp getenv)) <= 10)%nat /\
  collections (test_database imp getenv) =
    match imp with
    | Imported (Some db) =>
        match db_name db, db_list_collection_names db with
        | AttrRaises _, _ => []
        | _, inl _ => []
        | _, inr cs => List.firstn 10 cs
        end
    | _ => []
    end.
Proof.
  assert (Hlen : forall cs : list string, (List.length (List.firstn 10 cs) <= 10)%nat)
    by (intros cs; apply firstn_le_length).
  unfold test_database, try_block, with_handle.
  destruct imp as [e|[db|]].
  - destruct (import_error e); cbn; (split; [lia | reflexivity]).
  - destruct (db_name db) as [|v|e];
      [destruct (db_list_collection_names db) as [e|cs]
      |destruct (db_list_collection_names db) as [e|cs]
      |destruct (import_error e)];
      cbn [collections set_database set_database_url set_database_name
           set_connection_status set_collections initial_response];
      split; try reflexivity; try apply Hlen; cbn; lia.
  - cbn; split; [lia | reflexivity].
Qed.

(** X17: the status fields agree.  Either [connection_status] is
    "Connected" and [database] reports a working connection or a
    connection with a listing error; or [connection_status] is
    "Not Connected", [collections] is empty and [database] reports neither
    of the two. *)
Theorem test_database_status_consistent imp getenv :
  (connection_status (test_database imp getenv) = "Connected"%string /\
   (database_status (test_database imp getenv) = "✅ Connected & Working"%string \/
    exists t, database_status (test_database imp getenv) =
                ("⚠️  Connected but Error: " ++ t)%string)) \/
  (connection_status (test_database imp getenv) = "Not Connected"%string /\
   collections (test_database imp getenv) = [] /\
   database_status (test_database imp getenv) <> "✅ Connected & Working"%string /\
   forall t, database_status (test_database imp getenv) <>
               ("⚠️  Connected but Error: " ++ t)%string).
Proof.
  unfold test_database, try_block, with_handle.
  destruct imp as [e|[db|]].
  - right. destruct (import_error e); cbn; repeat split; discriminate.
  - destruct (db_name db) as [|v|e].
    + left. destruct (db_list_collection_names db) as [e|cs]; cbn;
        (split; [reflexivity|]); [right; eexists; reflexivity | left; reflexivity].
    + left. destruct (db_list_collection_names db) as [e|cs]; cbn;
        (split; [reflexivity|]); [right; eexists; reflexivity | left; reflexivity].
    + right. destruct (import_error e); cbn; repeat split; discriminate.
  - right. cbn. repeat split; discriminate.
Qed.

(** X18: the [database] status line has at most 75 characters, whatever
    the text of the exception it reports: the text is cut to its first 50
    characters. *)
Theorem test_database_status_bounded imp getenv :
  (char_count (database_status (test_database imp getenv)) <= 75)%nat.
Proof.
  assert (Hcut : forall (p s : string) k,
            (char_count p <= k)%nat ->
            (char_count (p ++ str_take 50 s) <= k + 50)%nat).
  { intros p s k Hp. rewrite char_count_append.
    destruct (str_take_spec s 50) as (_ & Hlen & _). lia. }
  unfold test_database, try_block, with_handle.
  destruct imp as [e|[db|]].
  - destruct (import_error e);
      cbn [database_status set_database set_database_url set_database_name
           initial_response].
    + vm_compute. lia.
    + apply (Hcut _ _ 25%nat). vm_compute. lia.
  - destruct (db_name db) as [|v|e];
      [destruct (db_list_collection_names db) as [e|cs]
      |destruct (db_list_collection_names db) as [e|cs]
      |destruct (import_error e)];
      cbn [database_status set_database set_database_url set_database_name
           set_connection_status set_collections initial_response];
      try (apply (Hcut _ _ 25%nat)); vm_compute; lia.
  - vm_compute. lia.
Qed.

End DiagnosticFacts.
